(** * FluentModel: the fluent query and update builders

    A shallow embedding of [query_builder.go] (First / Last / Take / GetOne /
    Find) and [update_builder.go] (Update / updateByMap / updateByStruct) of
    github.com/jiveio/fluentmodel, and the properties of their assembly,
    safety and reset behaviour.

    The terminal operations are functions from the builder state and the
    call arguments to an outcome, a new builder state and the list of
    statements handed to the database. *)

From Stdlib Require Import ZArith Lia.
From stdpp Require Import base option list strings gmap.

Set Warnings "-register-all".

Local Open Scope string_scope.
Local Open Scope list_scope.
Local Open Scope Z_scope.

(** ** Dynamic values

    Go's [any]: the nil interface, or a typed value.  Only the shapes the
    builders look at are distinguished. *)

Inductive value : Type :=
| VNil                          (* the nil interface: [v == nil] *)
| VBool (b : bool)
| VInt (n : Z)
| VString (s : string)
| VNilSlice                     (* a nil slice, boxed: the interface is not nil *)
| VSlice (items : list value).  (* a slice that is not nil, possibly empty *)

(** [v != nil] on an interface value. *)
Definition notNil (v : value) : bool :=
  match v with VNil => false | _ => true end.

(** [v == any(s)] for a Go string [s]: true only for an interface holding
    that very string. *)
Definition eqString (v : value) (s : string) : bool :=
  match v with VString t => bool_decide (t = s) | _ => false end.

(** [reflect.Value.IsZero] on a value of concrete (non-interface) type. *)
Definition isZero (v : value) : bool :=
  match v with
  | VNil => true
  | VBool b => negb b
  | VInt n => bool_decide (n = 0)
  | VString s => bool_decide (s = "")
  | VNilSlice => true           (* on a slice, IsZero is IsNil *)
  | VSlice _ => false
  end.

(** The subset of [reflect.Kind] the builders test against. *)
Inductive Kind : Type :=
| KBool | KInt | KString | KSlice | KMap | KStruct | KPtr.

#[global] Instance Kind_eq_dec : EqDecision Kind.
Proof. solve_decision. Defined.

(** [reflect.TypeOf(v).Kind()]; [reflect.TypeOf(nil)] is the nil type, on
    which [Kind()] cannot be called. *)
Definition valueKind (v : value) : option Kind :=
  match v with
  | VNil => None
  | VBool _ => Some KBool
  | VInt _ => Some KInt
  | VString _ => Some KString
  | VNilSlice | VSlice _ => Some KSlice
  end.

(** ** The external query builder (package fluentsql)

    Out of the repository: modelled at its interface, each chained call
    recording the clause it is given. *)

Module fluentsql.

(** Comparison operators.  The builders name [Eq] and [In]; the others
    stand for the rest of the enumeration. *)
Inductive WhereOpt : Type :=
| Eq | NotEq | Greater | Lesser | GrEq | LeEq | Like | In | NotIn.

Inductive WhereAndOr : Type := And | Or.

Inductive OrderByDir : Type := Asc | Desc.

Inductive JoinType : Type := InnerJoin | LeftJoin | RightJoin | FullOuterJoin | CrossJoin.

(** A leaf (Field, Opt, Value) joined by AndOr, or a parenthesised Group. *)
Inductive Condition : Type :=
  mkCondition {
      Field : value;
      Opt : WhereOpt;
      Value : value;
      AndOr : WhereAndOr;
      Group : list Condition
    }.

Record JoinItem : Type :=
  mkJoinItem { Join : JoinType; Table : string; JoinCondition : Condition }.

Record OrderItem : Type :=
  mkOrderItem { OrderField : string; Direction : OrderByDir }.

(** LIMIT count, offset. *)
Record Limit : Type := mkLimit { LimitCount : Z; LimitOffset : Z }.

(** OFFSET offset FETCH count. *)
Record Fetch : Type := mkFetch { FetchOffset : Z; FetchCount : Z }.

Record QueryBuilder : Type :=
  mkQuery {
      selectColumns : list value;
      fromTable : string;
      joinItems : list JoinItem;
      whereConditions : list Condition;
      groupByItems : list value;
      havingConditions : list Condition;
      limitClause : option Limit;
      fetchClause : option Fetch;
      orderByItems : list OrderItem
    }.

Definition QueryInstance : QueryBuilder :=
  mkQuery [] "" [] [] [] [] None None [].

Definition Select (cols : list value) (q : QueryBuilder) : QueryBuilder :=
  mkQuery cols (fromTable q) (joinItems q) (whereConditions q) (groupByItems q)
          (havingConditions q) (limitClause q) (fetchClause q) (orderByItems q).

Definition From (table : string) (q : QueryBuilder) : QueryBuilder :=
  mkQuery (selectColumns q) table (joinItems q) (whereConditions q) (groupByItems q)
          (havingConditions q) (limitClause q) (fetchClause q) (orderByItems q).

Definition SetLimit (count offset : Z) (q : QueryBuilder) : QueryBuilder :=
  mkQuery (selectColumns q) (fromTable q) (joinItems q) (whereConditions q) (groupByItems q)
          (havingConditions q) (Some (mkLimit count offset)) (fetchClause q) (orderByItems q).

Definition SetFetch (offset count : Z) (q : QueryBuilder) : QueryBuilder :=
  mkQuery (selectColumns q) (fromTable q) (joinItems q) (whereConditions q) (groupByItems q)
          (havingConditions q) (limitClause q) (Some (mkFetch offset count)) (orderByItems q).

(** [WhereCondition(conds...)]: the conditions are appended as they are. *)
Definition WhereCondition (conds : list Condition) (q : QueryBuilder) : QueryBuilder :=
  mkQuery (selectColumns q) (fromTable q) (joinItems q) (whereConditions q ++ conds)
          (groupByItems q) (havingConditions q) (limitClause q) (fetchClause q)
          (orderByItems q).

(** [Where(field, opt, value)]: an And-joined leaf. *)
Definition Where (field : value) (opt : WhereOpt) (v : value) : QueryBuilder -> QueryBuilder :=
  WhereCondition [mkCondition field opt v And []].

(** [WhereOr(field, opt, value)]: an Or-joined leaf. *)
Definition WhereOr (field : value) (opt : WhereOpt) (v : value) : QueryBuilder -> QueryBuilder :=
  WhereCondition [mkCondition field opt v Or []].

(** [WhereGroup(fn)] where [fn] fills a fresh builder with
    [WhereCondition(group...)]: one condition whose Group is [group]. *)
Definition WhereGroup (group : list Condition) : QueryBuilder -> QueryBuilder :=
  WhereCondition [mkCondition VNil Eq VNil And group].

Definition AddJoin (j : JoinItem) (q : QueryBuilder) : QueryBuilder :=
  mkQuery (selectColumns q) (fromTable q) (joinItems q ++ [j]) (whereConditions q)
          (groupByItems q) (havingConditions q) (limitClause q) (fetchClause q)
          (orderByItems q).

Definition GroupBy (items : list value) (q : QueryBuilder) : QueryBuilder :=
  mkQuery (selectColumns q) (fromTable q) (joinItems q) (whereConditions q)
          (groupByItems q ++ items) (havingConditions q) (limitClause q) (fetchClause q)
          (orderByItems q).

Definition Having (field : value) (opt : WhereOpt) (v : value) (q : QueryBuilder) : QueryBuilder :=
  mkQuery (selectColumns q) (fromTable q) (joinItems q) (whereConditions q)
          (groupByItems q) (havingConditions q ++ [mkCondition field opt v And []])
          (limitClause q) (fetchClause q) (orderByItems q).

Definition OrderBy (field : string) (dir : OrderByDir) (q : QueryBuilder) : QueryBuilder :=
  mkQuery (selectColumns q) (fromTable q) (joinItems q) (whereConditions q)
          (groupByItems q) (havingConditions q) (limitClause q) (fetchClause q)
          (orderByItems q ++ [mkOrderItem field dir]).

Record UpdateBuilder : Type :=
  mkUpdate {
      updateTable : string;
      updateWhere : list Condition;
      updateSet : list (string * value)
    }.

Definition UpdateInstance : UpdateBuilder := mkUpdate "" [] [].

Definition Update (table : string) (u : UpdateBuilder) : UpdateBuilder :=
  mkUpdate table (updateWhere u) (updateSet u).

Definition UWhereCondition (conds : list Condition) (u : UpdateBuilder) : UpdateBuilder :=
  mkUpdate (updateTable u) (updateWhere u ++ conds) (updateSet u).

Definition UWhere (field : value) (opt : WhereOpt) (v : value) : UpdateBuilder -> UpdateBuilder :=
  UWhereCondition [mkCondition field opt v And []].

Definition UWhereOr (field : value) (opt : WhereOpt) (v : value) : UpdateBuilder -> UpdateBuilder :=
  UWhereCondition [mkCondition field opt v Or []].

Definition UWhereGroup (group : list Condition) : UpdateBuilder -> UpdateBuilder :=
  UWhereCondition [mkCondition VNil Eq VNil And group].

Definition Set_ (column : string) (v : value) (u : UpdateBuilder) : UpdateBuilder :=
  mkUpdate (updateTable u) (updateWhere u) (updateSet u ++ [(column, v)]).

End fluentsql.

(** ** Records and their persistence metadata *)

(** A field of a record: its column name, its persistence flags and its
    current value. *)
Record StructField : Type :=
  mkField {
      fieldName : string;
      fieldPrimary : bool;
      fieldReadOnly : bool;
      fieldAutoGenerated : bool;
      fieldValue : value
    }.

(** A record instance: the table it maps to and its fields, in declaration
    order. *)
Record Struct : Type :=
  mkStruct { structTable : string; structFields : list StructField }.

Record Column : Type :=
  mkColumn {
      Name : string;
      Primary : bool;
      ReadOnly : bool;
      AutoGenerated : bool;
      HasValue : bool
    }.

Record Table : Type :=
  mkTable {
      TableName : string;
      Columns : list Column;
      Primaries : list Column;
      Values : gmap string value;
      HasData : bool
    }.

(** [table.Values[name]]: a Go map read, nil for a missing key. *)
Definition valueOf (table : Table) (name : string) : value :=
  default VNil (Values table !! name).

Definition columnOf (f : StructField) : Column :=
  mkColumn (fieldName f) (fieldPrimary f) (fieldReadOnly f) (fieldAutoGenerated f)
           (negb (isZero (fieldValue f))).

(** Modelled from the spec: the record metadata extractor (ModelData and
    processModel are not among the reviewed sources).  Columns follow the
    declared fields, Primaries are the columns flagged as primary key,
    Values maps each column name to the field's current value, a column has
    a value iff the field differs from its zero value, and HasData holds iff
    some column has a value. *)
Definition describe (r : Struct) : Table :=
  let columns := columnOf <$> structFields r in
  mkTable (structTable r)
          columns
          (List.filter Primary columns)
          (foldl (fun m f => <[fieldName f := fieldValue f]> m) ∅ (structFields r))
          (existsb HasValue columns).

(** Modelled from the spec: whether a column takes part in insert and
    update is a function of its flags alone (not read-only, not
    auto-generated); the method itself is not among the reviewed sources. *)
Definition CanColumnBeAddOrUpdate (table : Table) (column : Column) : bool :=
  negb (ReadOnly column) && negb (AutoGenerated column).

(** ** Call arguments of dynamic type

    What the terminal operations receive as [model any]. *)
Inductive anyModel : Type :=
| BasicModel (v : value)                   (* nil, or a scalar or slice value *)
| StructModel (r : Struct)                 (* T{...} *)
| PtrStructModel (r : Struct)              (* &T{...} *)
| PtrSliceModel (elem : Struct)            (* &[]T, T given by one of its records *)
| MapModel (ifaceElem : bool) (entries : list (string * value)).
                                           (* map[string]E; ifaceElem: E is an interface type *)

(** A [reflect.Type] as far as the builders inspect it: [Kind()] and, for a
    pointer, [Elem().Kind()]. *)
Record rtype : Type := mkType { kind : Kind; elemKind : option Kind }.

(** [reflect.TypeOf(model)]; [None] is the nil type of the nil interface. *)
Definition TypeOf (model : anyModel) : option rtype :=
  match model with
  | BasicModel v => (fun k => mkType k None) <$> valueKind v
  | StructModel _ => Some (mkType KStruct None)
  | PtrStructModel _ => Some (mkType KPtr (Some KStruct))
  | PtrSliceModel _ => Some (mkType KPtr (Some KSlice))
  | MapModel _ _ => Some (mkType KMap None)
  end.

(** [typ.Kind() == reflect.Struct ||
     (typ.Kind() == reflect.Ptr && typ.Elem().Kind() == reflect.Struct)] *)
Definition isStructOrPtr (typ : rtype) : bool :=
  bool_decide (kind typ = KStruct)
  || (bool_decide (kind typ = KPtr) && bool_decide (elemKind typ = Some KStruct)).

(** [typ.Kind() == reflect.Ptr && typ.Elem().Kind() == reflect.Slice] *)
Definition isPtrSlice (typ : rtype) : bool :=
  bool_decide (kind typ = KPtr) && bool_decide (elemKind typ = Some KSlice).

(** Modelled from the spec: [ModelData(model)] (not among the reviewed
    sources) gives the table of a record or of a pointer to a record; for
    any other shape it fails with the "invalid model" kind and there is no
    table to read. *)
Definition ModelData (model : anyModel) : option Table :=
  match model with
  | StructModel r | PtrStructModel r => Some (describe r)
  | _ => None
  end.

(** The zero value of a value's type. *)
Definition zeroValue (v : value) : value :=
  match v with
  | VNil => VNil
  | VBool _ => VBool false
  | VInt _ => VInt 0
  | VString _ => VString ""
  | VNilSlice | VSlice _ => VNilSlice
  end.

Definition zeroField (f : StructField) : StructField :=
  mkField (fieldName f) (fieldPrimary f) (fieldReadOnly f) (fieldAutoGenerated f)
          (zeroValue (fieldValue f)).

(** Modelled from the spec: [processModel(typeElement, valueElement,
    NewTable())] (not among the reviewed sources) gives the table of the
    element type of [*[]T], described from an empty value. *)
Definition processModel (elem : Struct) : Table :=
  describe (mkStruct (structTable elem) (zeroField <$> structFields elem)).

(** ** The fluent builder state *)

Definition error : Type := option string.     (* [None] is the nil error *)

(** Modelled from the spec: the accumulator behind a [*DBModel] (its
    declaration is not among the reviewed sources), with the fields the
    terminal operations read.  List-valued statements are given by their
    list (Columns, Conditions, Items). *)
Record DBModel : Type :=
  mkDB {
      model : option Struct;                  (* db.model: the bound record, if any *)
      raw_sqlStr : string;                    (* db.raw.sqlStr *)
      raw_args : list value;                  (* db.raw.args *)
      tx : option nat;                        (* db.tx: a transaction handle, if any *)
      selectStatement : list value;
      omitsSelectStatement : list value;
      wherePrimaryCondition : fluentsql.Condition;
      whereStatement : list fluentsql.Condition;
      joinStatement : list fluentsql.JoinItem;
      groupByStatement : list value;
      havingStatement : list fluentsql.Condition;
      limitStatement : fluentsql.Limit;
      fetchStatement : fluentsql.Fetch;
      orderByStatement : list fluentsql.OrderItem
    }.

(** The zero value of a Condition. *)
Definition zeroCondition : fluentsql.Condition :=
  fluentsql.mkCondition VNil fluentsql.Eq VNil fluentsql.And [].

(** The empty builder state. *)
Definition emptyDB : DBModel :=
  mkDB None "" [] None [] [] zeroCondition [] [] [] []
       (fluentsql.mkLimit 0 0) (fluentsql.mkFetch 0 0) [].

(** Modelled from the spec: [reset()] (not among the reviewed sources)
    clears every field of the builder state to its zero value. *)
Definition reset (db : DBModel) : DBModel := emptyDB.

Definition set_wherePrimaryCondition (c : fluentsql.Condition) (db : DBModel) : DBModel :=
  mkDB (model db) (raw_sqlStr db) (raw_args db) (tx db) (selectStatement db)
       (omitsSelectStatement db) c (whereStatement db) (joinStatement db)
       (groupByStatement db) (havingStatement db) (limitStatement db) (fetchStatement db)
       (orderByStatement db).

Definition set_model (m : option Struct) (db : DBModel) : DBModel :=
  mkDB m (raw_sqlStr db) (raw_args db) (tx db) (selectStatement db)
       (omitsSelectStatement db) (wherePrimaryCondition db) (whereStatement db)
       (joinStatement db) (groupByStatement db) (havingStatement db) (limitStatement db)
       (fetchStatement db) (orderByStatement db).

Definition set_limitStatement (l : fluentsql.Limit) (db : DBModel) : DBModel :=
  mkDB (model db) (raw_sqlStr db) (raw_args db) (tx db) (selectStatement db)
       (omitsSelectStatement db) (wherePrimaryCondition db) (whereStatement db)
       (joinStatement db) (groupByStatement db) (havingStatement db) l (fetchStatement db)
       (orderByStatement db).

(** ** The database and the run of a terminal operation *)

(** What is handed to the driver or the transaction, with the destination
    the rows are to be bound into where the call has one.  The helpers
    [db.get], [db.query], [db.update] and [db.execRaw] are not among the
    reviewed sources; each is taken to execute the statement it is given
    and to pass the error of the database on. *)
Inductive Stmt : Type :=
| RawGet (via : option nat) (dest : anyModel) (sql : string) (args : list value)
                                             (* tx.Get / dbInstance.Get (model, sql, args...) *)
| RawSelect (via : option nat) (dest : anyModel) (sql : string) (args : list value)
                                             (* tx.Select / dbInstance.Select (model, sql, args...) *)
| RawExec (sql : string) (args : list value)                      (* db.execRaw(sql, args) *)
| GetQuery (dest : anyModel) (q : fluentsql.QueryBuilder)         (* db.get(queryBuilder, model) *)
| SelectQuery (dest : anyModel) (q : fluentsql.QueryBuilder)      (* db.query(queryBuilder, model) *)
| CountQuery (q : fluentsql.QueryBuilder)                         (* db.count(queryBuilder, &total) *)
| UpdateStmt (u : fluentsql.UpdateBuilder).                       (* db.update(updateBuilder) *)

(** The collaborators outside the reviewed sources: the answer of the
    database to a statement, the number of rows a count query reports, and
    the where-conditions [whereFromModel] derives from the bound model
    [db.model] (its call sites document it as building the WHERE condition
    from a specific model; which conditions is left open). *)
Record Env : Type :=
  mkEnv {
      execute : Stmt -> error;
      countRows : fluentsql.QueryBuilder -> Z;
      whereFromModel : option Struct -> list fluentsql.Condition
    }.

(** How a Go call ends. *)
Inductive outcome (A : Type) : Type :=
| Returned (a : A)               (* it returns *)
| Fatal (msg : string)           (* log.Fatal: the message is logged, the process exits *)
| Panicked (msg : string).       (* a run-time panic unwinds the call *)

Arguments Returned {A} a.
Arguments Fatal {A} msg.
Arguments Panicked {A} msg.

(** A run: how the call ended, the builder state it left, and the
    statements it handed to the database, in order. *)
Record Run (A : Type) : Type :=
  mkRun { result : outcome A; builder : DBModel; executed : list Stmt }.

Arguments mkRun {A} result builder executed.
Arguments result {A} r.
Arguments builder {A} r.
Arguments executed {A} r.

(** ** Query ONE row *)

Inductive GetOne_t : Type := GetFirst | GetLast | TakeOne.

#[global] Instance GetOne_t_eq_dec : EqDecision GetOne_t.
Proof. solve_decision. Defined.

(** [rand.Reader] as far as one call consumes it: the raw numbers behind
    its two draws. *)
Record Reader : Type := mkReader { draw1 : Z; draw2 : Z }.

(** [rand.Int(rand.Reader, big.NewInt(max))]: uniform in [0, max); it
    panics when [max <= 0]. *)
Definition randInt (max raw : Z) : option Z :=
  if max <=? 0 then None else Some (raw mod max).

(** The primary key: the name of the first primary column, or nil. *)
Definition primaryKeyOf (table : Table) : option string :=
  Name <$> head (Primaries table).

(** A Go string, or nil, boxed as [any]. *)
Definition anyOf (key : option string) : value :=
  match key with Some s => VString s | None => VNil end.

(** Only some selected columns or all. *)
Definition selectColumnsOf (db : DBModel) : list value :=
  match selectStatement db with
  | [] => [VString "*"]
  | columns => columns
  end.

(** One round of the loop over [db.whereStatement.Conditions]. *)
Definition addCondition (q : fluentsql.QueryBuilder) (condition : fluentsql.Condition)
  : fluentsql.QueryBuilder :=
  match fluentsql.Group condition with
  | _ :: _ => fluentsql.WhereGroup (fluentsql.Group condition) q
  | [] =>
      match fluentsql.AndOr condition with
      | fluentsql.And =>
          fluentsql.Where (fluentsql.Field condition) (fluentsql.Opt condition)
                          (fluentsql.Value condition) q
      | fluentsql.Or =>
          fluentsql.WhereOr (fluentsql.Field condition) (fluentsql.Opt condition)
                            (fluentsql.Value condition) q
      end
  end.

(** One round of the loop over [table.Columns] that builds the WHERE
    condition from the model's data. *)
Definition addColumnFilter (table : Table) (q : fluentsql.QueryBuilder) (column : Column)
  : fluentsql.QueryBuilder :=
  if negb (HasValue column) then q
  else fluentsql.Where (VString (Name column)) fluentsql.Eq (valueOf table (Name column)) q.

(** [x%2 == 1] picks ascending. *)
Definition dirOf (n : Z) : fluentsql.OrderByDir :=
  if n mod 2 =? 1 then fluentsql.Asc else fluentsql.Desc.

(** The field GetOne orders by unless the strategy picks another: the
    primary key, else the first declared column. *)
Definition orderFieldOf (table : Table) : option string :=
  match primaryKeyOf table with
  | Some key => Some key
  | None => Name <$> (Columns table !! 0%nat)
  end.

(** The ordering part of GetOne: the order-by field and direction of the
    strategy. *)
Definition orderOf (table : Table) (getType : GetOne_t) (reader : Reader)
  : outcome (string * fluentsql.OrderByDir) :=
  match orderFieldOf table with
  | None => Panicked "index out of range [0] with length 0"
  | Some orderByField =>
      (* Get order *)
      if bool_decide (getType = GetLast) && negb (bool_decide (orderByField = ""))
      then Returned (orderByField, fluentsql.Desc)
      else if bool_decide (getType = GetFirst) && negb (bool_decide (orderByField = ""))
      then Returned (orderByField, fluentsql.Asc)
      else if bool_decide (getType = TakeOne)
      then
        (* Random order field and order dir *)
        match randInt (Z.of_nat (length (Columns table)) - 1) (draw1 reader) with
        | None => Panicked "crypto/rand: argument to Int is <= 0"
        | Some n =>
            match Columns table !! Z.to_nat n with
            | None => Panicked "index out of range"
            | Some column =>
                match randInt 10 (draw2 reader) with
                | None => Panicked "crypto/rand: argument to Int is <= 0"
                | Some m => Returned (Name column, dirOf m)
                end
            end
        end
      else
        (* no branch taken: the direction keeps its zero value *)
        Returned (orderByField, fluentsql.Asc)
  end.

(** The assembly part of GetOne: from the table metadata to the query
    handed to [db.get]. *)
Definition buildOne (env : Env) (db : DBModel) (table : Table) (getType : GetOne_t)
                    (reader : Reader) : outcome fluentsql.QueryBuilder :=
  let primaryKey := primaryKeyOf table in
  (* Create query builder *)
  let queryBuilder :=
    fluentsql.SetLimit 1 0
      (fluentsql.From (TableName table)
         (fluentsql.Select (selectColumnsOf db) fluentsql.QueryInstance)) in
  (* Build WHERE condition with specific primary value *)
  let queryBuilder :=
    if notNil (fluentsql.Value (wherePrimaryCondition db)) && bool_decide (is_Some primaryKey)
    then fluentsql.Where (anyOf primaryKey) (fluentsql.Opt (wherePrimaryCondition db))
                         (fluentsql.Value (wherePrimaryCondition db)) queryBuilder
    else queryBuilder in
  (* Build WHERE condition from a condition list *)
  let queryBuilder := foldl addCondition queryBuilder (whereStatement db) in
  (* Build WHERE condition from model's data *)
  let queryBuilder :=
    if HasData table then foldl (addColumnFilter table) queryBuilder (Columns table)
    else queryBuilder in
  (* Build WHERE condition from a specific model *)
  let queryBuilder := fluentsql.WhereCondition (whereFromModel env (model db)) queryBuilder in
  match orderOf table getType reader with
  | Returned (orderByField, orderByDir) =>
      (* Build Order By clause *)
      Returned (fluentsql.OrderBy orderByField orderByDir queryBuilder)
  | Fatal msg => Fatal msg
  | Panicked msg => Panicked msg
  end.

(** GetOne with specific strategy GetLast | GetFirst | TakeOne *)
Definition GetOne (env : Env) (db : DBModel) (target : anyModel) (getType : GetOne_t)
                  (reader : Reader) : Run error :=
  if negb (bool_decide (raw_sqlStr db = "")) then
    (* Query raw SQL *)
    let stmt := RawGet (tx db) target (raw_sqlStr db) (raw_args db) in
    mkRun (Returned (execute env stmt)) (reset db) [stmt]
  else
    match TypeOf target with
    | None => mkRun (Panicked "invalid memory address or nil pointer dereference") db []
    | Some typ =>
        if negb (isStructOrPtr typ) then
          mkRun (Returned (Some "invalid data :: model not Struct type")) db []
        else
          match ModelData target with
          | None => mkRun (Panicked "invalid memory address or nil pointer dereference") db []
          | Some table =>
              match buildOne env db table getType reader with
              | Returned queryBuilder =>
                  let stmt := GetQuery target queryBuilder in
                  mkRun (Returned (execute env stmt)) (reset db) [stmt]
              | Fatal msg => mkRun (Fatal msg) db []
              | Panicked msg => mkRun (Panicked msg) db []
              end
          end
    end.

(** First get the first record ordered by primary key *)
Definition First (env : Env) (db : DBModel) (target : anyModel) (args : list value)
                 (reader : Reader) : Run error :=
  let db :=
    match args with
    | arg0 :: _ =>
        set_wherePrimaryCondition
          (fluentsql.mkCondition VNil fluentsql.Eq arg0 fluentsql.And []) db
    | [] => db
    end in
  GetOne env db target GetFirst reader.

(** Take get one record, no specified order *)
Definition Take (env : Env) (db : DBModel) (target : anyModel) (reader : Reader) : Run error :=
  GetOne env db target TakeOne reader.

(** Last last record, ordered by primary key desc *)
Definition Last (env : Env) (db : DBModel) (target : anyModel) (reader : Reader) : Run error :=
  GetOne env db target GetLast reader.

(** ** Query MULTI rows *)

(** The filters of a query without its pagination and ordering clauses. *)
Definition countQueryOf (q : fluentsql.QueryBuilder) : fluentsql.QueryBuilder :=
  fluentsql.mkQuery (fluentsql.selectColumns q) (fluentsql.fromTable q)
                    (fluentsql.joinItems q) (fluentsql.whereConditions q)
                    (fluentsql.groupByItems q) (fluentsql.havingConditions q)
                    None None [].

(** Modelled from the spec: [db.count] (not among the reviewed sources)
    runs a companion count query with the same filters, ignoring limit,
    offset, fetch and order, and reports the number of matching rows. *)
Definition count (env : Env) (queryBuilder : fluentsql.QueryBuilder) : Stmt * error * Z :=
  let stmt := CountQuery (countQueryOf queryBuilder) in
  match execute env stmt with
  | Some e => (stmt, Some e, 0)
  | None => (stmt, None, countRows env (countQueryOf queryBuilder))
  end.

(** The assembly part of Find up to its HAVING clause, after the id list
    has been merged into the builder state: what is selected and which rows
    match. *)
Definition filterMany (env : Env) (db : DBModel) (table : Table) : fluentsql.QueryBuilder :=
  let primaryKey := primaryKeyOf table in
  (* Create query builder *)
  let queryBuilder :=
    fluentsql.From (TableName table)
      (fluentsql.Select (selectColumnsOf db) fluentsql.QueryInstance) in
  (* Build JOIN clause *)
  let queryBuilder :=
    foldl (fun q joinItem => fluentsql.AddJoin joinItem q) queryBuilder (joinStatement db) in
  (* Build WHERE condition with specific primary value *)
  let queryBuilder :=
    if notNil (fluentsql.Value (wherePrimaryCondition db)) && bool_decide (is_Some primaryKey)
    then fluentsql.WhereCondition [wherePrimaryCondition db] queryBuilder
    else queryBuilder in
  (* Build WHERE condition from a condition list *)
  let queryBuilder := foldl addCondition queryBuilder (whereStatement db) in
  (* Build WHERE condition from a specific model *)
  let queryBuilder := fluentsql.WhereCondition (whereFromModel env (model db)) queryBuilder in
  (* Build GROUP BY clause *)
  let queryBuilder :=
    match groupByStatement db with
    | [] => queryBuilder
    | items => fluentsql.GroupBy items queryBuilder
    end in
  (* Build HAVING clause *)
  foldl (fun q condition =>
           fluentsql.Having (fluentsql.Field condition) (fluentsql.Opt condition)
                            (fluentsql.Value condition) q)
        queryBuilder (havingStatement db).

(** The rest of the assembly of Find: LIMIT, FETCH and ORDER BY. *)
Definition paginate (db : DBModel) (queryBuilder : fluentsql.QueryBuilder)
  : fluentsql.QueryBuilder :=
  (* Build LIMIT clause *)
  let queryBuilder :=
    if 0 <? fluentsql.LimitCount (limitStatement db)
    then fluentsql.SetLimit (fluentsql.LimitCount (limitStatement db))
                            (fluentsql.LimitOffset (limitStatement db)) queryBuilder
    else queryBuilder in
  (* Build FETCH clause *)
  let queryBuilder :=
    if 0 <? fluentsql.FetchCount (fetchStatement db)
    then fluentsql.SetFetch (fluentsql.FetchOffset (fetchStatement db))
                            (fluentsql.FetchCount (fetchStatement db)) queryBuilder
    else queryBuilder in
  (* Build ORDER BY clause *)
  foldl (fun q orderItem =>
           fluentsql.OrderBy (fluentsql.OrderField orderItem) (fluentsql.Direction orderItem) q)
        queryBuilder (orderByStatement db).

(** The query Find hands to [db.query] and then to [db.count]. *)
Definition buildMany (env : Env) (db : DBModel) (table : Table) : fluentsql.QueryBuilder :=
  paginate db (filterMany env db table).

(** The execution part of Find: the row query, then the count query. *)
Definition runMany (env : Env) (db : DBModel) (target : anyModel) (table : Table)
  : Run (Z * error) :=
  let queryBuilder := buildMany env db table in
  let rows := SelectQuery target queryBuilder in
  match execute env rows with
  | Some e => mkRun (Returned (0, Some e)) db [rows]
  | None =>
      match count env queryBuilder with
      | (counting, Some e, total) => mkRun (Returned (total, Some e)) db [rows; counting]
      | (counting, None, total) => mkRun (Returned (total, None)) (reset db) [rows; counting]
      end
  end.

(** Find search rows *)
Definition Find (env : Env) (db : DBModel) (target : anyModel) (params : list value)
  : Run (Z * error) :=
  if negb (bool_decide (raw_sqlStr db = "")) then
    (* Query raw SQL *)
    let stmt := RawSelect (tx db) target (raw_sqlStr db) (raw_args db) in
    mkRun (Returned (0, execute env stmt)) (reset db) [stmt]
  else
    match TypeOf target with
    | None => mkRun (Panicked "invalid memory address or nil pointer dereference") db []
    | Some typ =>
        if negb (isPtrSlice typ) then
          mkRun (Returned (0, Some "invalid data :: model not *Slice type")) db []
        else
          match target with
          | PtrSliceModel elem =>
              let table := processModel elem in
              match params, primaryKeyOf table with
              | sliceIds :: _, Some primaryKey =>
                  match valueKind sliceIds with
                  | None =>
                      mkRun (Panicked "invalid memory address or nil pointer dereference") db []
                  | Some k =>
                      if negb (bool_decide (k = KSlice)) then
                        mkRun (Returned (0, Some "invalid data :: params not Slice type")) db []
                      else
                        runMany env
                          (set_wherePrimaryCondition
                             (fluentsql.mkCondition (VString primaryKey) fluentsql.In sliceIds
                                                    fluentsql.And [])
                             db)
                          target table
                  end
              | _, _ => runMany env db target table
              end
          | _ => mkRun (Panicked "not a pointer to a slice of records") db []
          end
    end.

(** ** Update *)

(** [itemVal.IsValid() && !itemVal.IsZero()] on an entry read with
    [MapIndex]: for a map whose element type is an interface the entry has
    kind Interface and is zero only when nil; otherwise it is zero when it
    is the zero value of the element type. *)
Definition isSet (ifaceElem : bool) (itemVal : value) : bool :=
  if ifaceElem then notNil itemVal else negb (isZero itemVal).

(** Modelled from the spec: [SetValue(model, key, val)] (not among the
    reviewed sources) assigns the value onto the field of the bound model
    named by the key. *)
Definition SetValue (r : Struct) (key : string) (val : value) : Struct :=
  mkStruct (structTable r)
           ((fun f => if bool_decide (fieldName f = key)
                      then mkField (fieldName f) (fieldPrimary f) (fieldReadOnly f)
                                   (fieldAutoGenerated f) val
                      else f) <$> structFields r).

(** Process for each map key. *)
Definition applyMap (ifaceElem : bool) (entries : list (string * value)) (r : Struct) : Struct :=
  foldl (fun r entry => if isSet ifaceElem entry.2 then SetValue r entry.1 entry.2 else r)
        r entries.

(** [slices.Contains(db.omitsSelectStatement.Columns, any(name))] *)
Definition omitted (db : DBModel) (name : string) : bool :=
  existsb (fun v => eqString v name) (omitsSelectStatement db).

(** What the first loop of updateByStruct accumulates. *)
Record Collected : Type :=
  mkCollected {
      columns : list string;
      values : list value;
      primaryCondition : fluentsql.Condition
    }.

(** One round of the loop that gets columns and values accordingly. *)
Definition collectColumn (db : DBModel) (table : Table) (primaryKey : option string)
                         (acc : Collected) (column : Column) : Collected :=
  (* Restriction from model declaration *)
  if negb (CanColumnBeAddOrUpdate table column) then acc
  (* Restriction from omitted columns *)
  else if match omitsSelectStatement db with [] => false | _ => omitted db (Name column) end
  then acc
  else
    let value := valueOf table (Name column) in
    mkCollected (columns acc ++ [Name column]) (values acc ++ [value])
                (* Create special condition for PRIMARY KEY *)
                (if bool_decide (Some (Name column) = primaryKey)
                 then fluentsql.mkCondition (anyOf primaryKey) fluentsql.Eq value fluentsql.And []
                 else primaryCondition acc).

Definition collect (db : DBModel) (table : Table) : Collected :=
  foldl (collectColumn db table (primaryKeyOf table))
        (mkCollected [] [] (wherePrimaryCondition db)) (Columns table).

(** One round of the loop over the configured conditions of an update;
    every branch records that a condition is present. *)
Definition addUpdateCondition (acc : fluentsql.UpdateBuilder * bool)
                              (condition : fluentsql.Condition)
  : fluentsql.UpdateBuilder * bool :=
  match fluentsql.Group condition with
  | _ :: _ => (fluentsql.UWhereGroup (fluentsql.Group condition) acc.1, true)
  | [] =>
      match fluentsql.AndOr condition with
      | fluentsql.And =>
          (fluentsql.UWhere (fluentsql.Field condition) (fluentsql.Opt condition)
                            (fluentsql.Value condition) acc.1, true)
      | fluentsql.Or =>
          (fluentsql.UWhereOr (fluentsql.Field condition) (fluentsql.Opt condition)
                              (fluentsql.Value condition) acc.1, true)
      end
  end.

(** One round of the loop that builds the updating fields from the model's
    data. *)
Definition addSet (table : Table) (u : fluentsql.UpdateBuilder) (column : Column)
  : fluentsql.UpdateBuilder :=
  if negb (HasValue column) then u
  else fluentsql.Set_ (Name column) (valueOf table (Name column)) u.

(** updateByStruct Update data by reflection Struct *)
Definition updateByStruct (env : Env) (db : DBModel) (target : anyModel) : Run error :=
  match ModelData target with
  | None => mkRun (Panicked "invalid memory address or nil pointer dereference") db []
  | Some table =>
      let primaryKey := primaryKeyOf table in
      let collected := collect db table in
      let db := set_wherePrimaryCondition (primaryCondition collected) db in
      (* Create update instance *)
      let updateBuilder := fluentsql.Update (TableName table) fluentsql.UpdateInstance in
      (* Build WHERE condition with specific primary value *)
      let start :=
        if notNil (fluentsql.Value (wherePrimaryCondition db))
           && bool_decide (is_Some primaryKey)
        then (fluentsql.UWhere (anyOf primaryKey) (fluentsql.Opt (wherePrimaryCondition db))
                               (fluentsql.Value (wherePrimaryCondition db)) updateBuilder,
              true)
        else (updateBuilder, false) in
      (* Build WHERE condition from a condition list *)
      let '(updateBuilder, hasCondition) :=
        foldl addUpdateCondition start (whereStatement db) in
      if negb hasCondition then
        mkRun (Returned (Some "missing WHERE condition for updating operator")) db []
      else
        let updateBuilder := foldl (addSet table) updateBuilder (Columns table) in
        let stmt := UpdateStmt updateBuilder in
        mkRun (Returned (execute env stmt)) db [stmt]
  end.

Definition updateByMap (env : Env) (db : DBModel) (value : anyModel) : Run error :=
  match model db with
  | None => mkRun (Returned (Some "missing model for map value")) db []
  | Some bound =>
      match value with
      | MapModel ifaceElem entries =>
          let bound := applyMap ifaceElem entries bound in
          updateByStruct env (set_model (Some bound) db) (PtrStructModel bound)
      | _ => mkRun (Panicked "reflect: call of MapKeys on a value that is not a map") db []
      end
  end.

(** The path Update dispatches to, before its error is looked at. *)
Definition dispatch (env : Env) (db : DBModel) (target : anyModel) : Run error :=
  if negb (bool_decide (raw_sqlStr db = "")) then
    let stmt := RawExec (raw_sqlStr db) (raw_args db) in
    mkRun (Returned (execute env stmt)) db [stmt]
  else
    match TypeOf target with
    | None => mkRun (Panicked "invalid memory address or nil pointer dereference") db []
    | Some typ =>
        if bool_decide (kind typ = KMap) then updateByMap env db target
        else if isStructOrPtr typ then updateByStruct env db target
        else mkRun (Returned None) db []
    end.

(** Update modify data for table via model type Struct, *Struct *)
Definition Update (env : Env) (db : DBModel) (target : anyModel) : Run error :=
  let path := dispatch env db target in
  match result path with
  | Returned (Some err) =>
      (* log.Fatal(err) *)
      mkRun (Fatal err) (builder path) (executed path)
  | Returned None =>
      (* Reset fluent model builder *)
      mkRun (Returned None) (reset (builder path)) (executed path)
  | Fatal msg => mkRun (Fatal msg) (builder path) (executed path)
  | Panicked msg => mkRun (Panicked msg) (builder path) (executed path)
  end.

(** ** Derived notions used to state the properties *)

(** The condition the builder receives for a configured condition: a group
    keeps its sub-conditions only, a leaf is passed on with its
    conjunction. *)
Definition asAdded (condition : fluentsql.Condition) : fluentsql.Condition :=
  match fluentsql.Group condition with
  | _ :: _ =>
      fluentsql.mkCondition VNil fluentsql.Eq VNil fluentsql.And (fluentsql.Group condition)
  | [] =>
      fluentsql.mkCondition (fluentsql.Field condition) (fluentsql.Opt condition)
                            (fluentsql.Value condition) (fluentsql.AndOr condition) []
  end.

(** The equality filter a populated column contributes. *)
Definition columnFilter (table : Table) (column : Column) : fluentsql.Condition :=
  fluentsql.mkCondition (VString (Name column)) fluentsql.Eq (valueOf table (Name column))
                        fluentsql.And [].

(** The in-struct filters of a table: one per populated column, when the
    record has data. *)
Definition structFilters (table : Table) : list fluentsql.Condition :=
  if HasData table then columnFilter table <$> List.filter HasValue (Columns table) else [].

(** The primary-key condition GetOne injects, if any. *)
Definition primaryFilter (db : DBModel) (table : Table) : list fluentsql.Condition :=
  if notNil (fluentsql.Value (wherePrimaryCondition db))
     && bool_decide (is_Some (primaryKeyOf table))
  then [fluentsql.mkCondition (anyOf (primaryKeyOf table))
                              (fluentsql.Opt (wherePrimaryCondition db))
                              (fluentsql.Value (wherePrimaryCondition db)) fluentsql.And []]
  else [].


(** The where clause GetOne assembles: the primary-key condition, the
    configured conditions, the in-struct filters, and what the bound model
    contributes. *)
Definition whereOne (env : Env) (db : DBModel) (table : Table) : list fluentsql.Condition :=
  primaryFilter db table ++ (asAdded <$> whereStatement db) ++ structFilters table
  ++ whereFromModel env (model db).

(** The query GetOne assembles before its order-by clause. *)
Definition baseOne (env : Env) (db : DBModel) (table : Table) : fluentsql.QueryBuilder :=
  fluentsql.mkQuery (selectColumnsOf db) (TableName table) [] (whereOne env db table) [] []
                    (Some (fluentsql.mkLimit 1 0)) None [].

(** The record behind a well-shaped single-row target: a record or a
    pointer to a record. *)
Definition recordOf (target : anyModel) : option Struct :=
  match target with
  | StructModel r | PtrStructModel r => Some r
  | _ => None
  end.

(** A run that handed exactly one single-row query to the database, to be
    bound into [target], ordered on [field] in direction [dir], with limit 1
    and offset 0. *)
Definition OrdersBy (run : Run error) (target : anyModel) (field : string)
                    (dir : fluentsql.OrderByDir) : Prop :=
  exists q,
    executed run = [GetQuery target q]
    /\ fluentsql.orderByItems q = [fluentsql.mkOrderItem field dir]
    /\ fluentsql.limitClause q = Some (fluentsql.mkLimit 1 0).

(** Whether the ordering part of GetOne comes to an order-by item: Take
    needs two columns to draw from, First and Last a field to order by. *)
Definition orders (table : Table) (getType : GetOne_t) : bool :=
  match getType with
  | TakeOne => bool_decide (2 <= Z.of_nat (length (Columns table)))
  | _ => bool_decide (is_Some (orderFieldOf table))
  end.

(** ** Sample records and collaborators *)

(** [User{Id: 103}] with columns Id (primary key), Name and Age. *)
Definition user103 : Struct :=
  mkStruct "users"
           [mkField "Id" true false false (VInt 103);
            mkField "Name" false false false (VString "");
            mkField "Age" false false false (VInt 0)].

(** A user with every column populated. *)
Definition userCat : Struct :=
  mkStruct "users"
           [mkField "Id" true false false (VInt 7);
            mkField "Name" false false false (VString "Cat");
            mkField "Age" false false false (VInt 42)].

(** A record type whose primary key is not its first column. *)
Definition member : Struct :=
  mkStruct "members"
           [mkField "Name" false false false (VString "");
            mkField "Id" true false false (VInt 0)].

(** A record type without a primary key. *)
Definition logLine : Struct :=
  mkStruct "logs"
           [mkField "At" false false false (VInt 0);
            mkField "Text" false false false (VString "")].

(** A record type with a single column. *)
Definition counter : Struct :=
  mkStruct "counters" [mkField "N" false false false (VInt 0)].

(** A database that accepts every statement and counts 42 rows; the bound
    model contributes no condition. *)
Definition okEnv : Env := mkEnv (fun _ => None) (fun _ => 42) (fun _ => []).

(** A database that rejects every statement. *)
Definition failingEnv : Env := mkEnv (fun _ => Some "driver: bad connection") (fun _ => 0) (fun _ => []).

Definition someReader : Reader := mkReader 7 3.

(** The primary-key condition Find and Update build their WHERE clause
    from, if any. *)
Definition primaryCond (c : fluentsql.Condition) (table : Table) : bool :=
  notNil (fluentsql.Value c) && bool_decide (is_Some (primaryKeyOf table)).

(** The where clause Find assembles. *)
Definition whereMany (env : Env) (db : DBModel) (table : Table) : list fluentsql.Condition :=
  (if primaryCond (wherePrimaryCondition db) table then [wherePrimaryCondition db] else [])
  ++ (asAdded <$> whereStatement db) ++ whereFromModel env (model db).

(** The SET pairs updateByStruct hands to the update builder. *)
Definition setPairs (table : Table) : list (string * value) :=
  (fun column => (Name column, valueOf table (Name column)))
    <$> List.filter HasValue (Columns table).

(** The where clause updateByStruct assembles. *)
Definition whereUpdate (db : DBModel) (table : Table) : list fluentsql.Condition :=
  let c := primaryCondition (collect db table) in
  (if primaryCond c table
   then [fluentsql.mkCondition (anyOf (primaryKeyOf table)) (fluentsql.Opt c)
                               (fluentsql.Value c) fluentsql.And []]
   else [])
  ++ (asAdded <$> whereStatement db).

Definition missingWhere : string := "missing WHERE condition for updating operator".

Definition missingModel : string := "missing model for map value".

(** The table the struct path of Update works on: the target record, or on
    the map path the bound model after the map has been applied to it. *)
Definition updatedTable (db : DBModel) (target : anyModel) : option Table :=
  match target with
  | StructModel r | PtrStructModel r => Some (describe r)
  | MapModel ifaceElem entries => (fun bound => describe (applyMap ifaceElem entries bound)) <$> model db
  | _ => None
  end.

(** The primary-key fast-path condition as Update tests it: the configured
    one, or the one captured from the primary-key column of the record. *)
Definition effectivePrimary (db : DBModel) (target : anyModel) : fluentsql.Condition :=
  match updatedTable db target with
  | Some table => primaryCondition (collect db table)
  | None => wherePrimaryCondition db
  end.

(** The struct and map paths of Update. *)
Definition onUpdatePath (target : anyModel) : bool :=
  match target with
  | StructModel _ | PtrStructModel _ | MapModel _ _ => true
  | _ => false
  end.

(** A builder state with one configured where-condition, Age = 1. *)
Definition ageIsOne : fluentsql.Condition :=
  fluentsql.mkCondition (VString "Age") fluentsql.Eq (VInt 1) fluentsql.And [].

Definition filteredDB : DBModel :=
  mkDB None "" [] None [] [] zeroCondition [ageIsOne] [] [] []
       (fluentsql.mkLimit 0 0) (fluentsql.mkFetch 0 0) [].

(** The same with the column Name in the omit list. *)
Definition omitNameDB : DBModel :=
  mkDB None "" [] None [] [VString "Name"] zeroCondition [ageIsOne] [] [] []
       (fluentsql.mkLimit 0 0) (fluentsql.mkFetch 0 0) [].

(** A record with an auto-generated primary key and a populated read-only
    column. *)
Definition article : Struct :=
  mkStruct "articles"
           [mkField "Id" true false true (VInt 9);
            mkField "Title" false false false (VString "Draft");
            mkField "CreatedAt" false true false (VInt 1700000000)].

(** The builder state after Find has merged a well-formed id list into
    it. *)
Definition mergeIds (db : DBModel) (table : Table) (params : list value) : DBModel :=
  match params, primaryKeyOf table with
  | sliceIds :: _, Some primaryKey =>
      set_wherePrimaryCondition
        (fluentsql.mkCondition (VString primaryKey) fluentsql.In sliceIds fluentsql.And []) db
  | _, _ => db
  end.

(** A builder state paginated with LIMIT 10 OFFSET 20. *)
Definition pagedDB : DBModel := set_limitStatement (fluentsql.mkLimit 10 20) filteredDB.
(** ** Derived notions for the properties of the whole builders *)

(** The condition a configured having-condition contributes: its leaf,
    And-joined. *)
Definition havingLeaf (condition : fluentsql.Condition) : fluentsql.Condition :=
  fluentsql.mkCondition (fluentsql.Field condition) (fluentsql.Opt condition)
                        (fluentsql.Value condition) fluentsql.And [].

(** The LIMIT clause Find builds, if any. *)
Definition limitOf (db : DBModel) : option fluentsql.Limit :=
  if 0 <? fluentsql.LimitCount (limitStatement db)
  then Some (fluentsql.mkLimit (fluentsql.LimitCount (limitStatement db))
                               (fluentsql.LimitOffset (limitStatement db)))
  else None.

(** The FETCH clause Find builds, if any. *)
Definition fetchOf (db : DBModel) : option fluentsql.Fetch :=
  if 0 <? fluentsql.FetchCount (fetchStatement db)
  then Some (fluentsql.mkFetch (fluentsql.FetchOffset (fetchStatement db))
                               (fluentsql.FetchCount (fetchStatement db)))
  else None.

(** The query Find assembles, clause by clause. *)
Definition queryMany (env : Env) (db : DBModel) (table : Table) : fluentsql.QueryBuilder :=
  fluentsql.mkQuery (selectColumnsOf db) (TableName table) (joinStatement db)
                    (whereMany env db table) (groupByStatement db)
                    (havingLeaf <$> havingStatement db) (limitOf db) (fetchOf db)
                    (orderByStatement db).

(** Whether the id list given to Find passes its check: there is nothing
    to check without a parameter or without a primary key, and otherwise
    the first parameter has to be a slice. *)
Definition validIds (table : Table) (params : list value) : bool :=
  match params, primaryKeyOf table with
  | sliceIds :: _, Some _ => bool_decide (valueKind sliceIds = Some KSlice)
  | _, _ => true
  end.

(** Whether the first loop of updateByStruct takes a column as the primary
    key: it may be updated, it is not omitted, and it is named as the
    primary key. *)
Definition captureTest (db : DBModel) (table : Table) (column : Column) : bool :=
  CanColumnBeAddOrUpdate table column
  && negb (omitted db (Name column))
  && bool_decide (Some (Name column) = primaryKeyOf table).

Definition captures (db : DBModel) (table : Table) : bool :=
  existsb (captureTest db table) (Columns table).

(** The condition captured from the primary-key column of a record. *)
Definition capturedCondition (table : Table) : fluentsql.Condition :=
  fluentsql.mkCondition (anyOf (primaryKeyOf table)) fluentsql.Eq
                        (match primaryKeyOf table with
                         | Some key => valueOf table key
                         | None => VNil
                         end)
                        fluentsql.And [].

(** A record type without any column. *)
Definition bare : Struct := mkStruct "bares" [].

(** A user with every field at its zero value. *)
Definition userZero : Struct :=
  mkStruct "users"
           [mkField "Id" true false false (VInt 0);
            mkField "Name" false false false (VString "");
            mkField "Age" false false false (VInt 0)].

(** A builder with a raw query set. *)
Definition rawDB : DBModel :=
  mkDB None "SELECT 1" [VInt 1] (Some 4%nat) [] [] zeroCondition [ageIsOne] [] [] []
       (fluentsql.mkLimit 0 0) (fluentsql.mkFetch 0 0) [].

(** A builder with every clause of Find configured. *)
Definition fullDB : DBModel :=
  mkDB None "" [] None [VString "Id"; VString "Name"] [] zeroCondition [ageIsOne]
       [fluentsql.mkJoinItem fluentsql.LeftJoin "orders" ageIsOne]
       [VString "Name"]
       [fluentsql.mkCondition (VString "Age") fluentsql.Greater (VInt 3) fluentsql.Or []]
       (fluentsql.mkLimit 10 20) (fluentsql.mkFetch 0 5)
       [fluentsql.mkOrderItem "Name" fluentsql.Desc; fluentsql.mkOrderItem "Id" fluentsql.Asc].

(** A builder with the column Id in the omit list and nothing else. *)
Definition omitIdDB : DBModel :=
  mkDB None "" [] None [] [VString "Id"] zeroCondition [] [] [] []
       (fluentsql.mkLimit 0 0) (fluentsql.mkFetch 0 0) [].


(** A database that answers the row queries and rejects the count
    queries. *)
Definition countFailingEnv : Env :=
  mkEnv (fun stmt => match stmt with CountQuery _ => Some "driver: timeout" | _ => None end)
        (fun _ => 0) (fun _ => []).

(** The primary-key condition updateByStruct works with: the one captured
    from the record, or else the one the builder held. *)
Definition effectiveCondition (db : DBModel) (table : Table) : fluentsql.Condition :=
  if captures db table then capturedCondition table else wherePrimaryCondition db.

(** What Update comes to once its statement has been assembled: the
    database accepts it and Update returns, or the error ends in the fatal
    logger. *)
Definition afterExecute (env : Env) (stmt : Stmt) : outcome error :=
  match execute env stmt with
  | Some err => Fatal err
  | None => Returned None
  end.

(** * Properties *)

(** ** The where clause of the external builder *)

Section WhereClause.

Import fluentsql.

Lemma WhereCondition_nil (q : QueryBuilder) : WhereCondition [] q = q.
Proof. destruct q; unfold WhereCondition; simpl. by rewrite app_nil_r. Qed.

Lemma WhereCondition_app (a b : list Condition) (q : QueryBuilder) :
  WhereCondition b (WhereCondition a q) = WhereCondition (a ++ b) q.
Proof. unfold WhereCondition; simpl. by rewrite app_assoc. Qed.

Lemma UWhereCondition_app (a b : list Condition) (u : UpdateBuilder) :
  UWhereCondition b (UWhereCondition a u) = UWhereCondition (a ++ b) u.
Proof. unfold UWhereCondition; simpl. by rewrite app_assoc. Qed.

End WhereClause.

Lemma addCondition_eq (q : fluentsql.QueryBuilder) (c : fluentsql.Condition) :
  addCondition q c = fluentsql.WhereCondition [asAdded c] q.
Proof.
  unfold addCondition, asAdded.
  destruct (fluentsql.Group c); [destruct (fluentsql.AndOr c)|]; reflexivity.
Qed.

Lemma foldl_addCondition (l : list fluentsql.Condition) (q : fluentsql.QueryBuilder) :
  foldl addCondition q l = fluentsql.WhereCondition (asAdded <$> l) q.
Proof.
  revert q. induction l as [|c l IH]; intros q; simpl.
  - by rewrite WhereCondition_nil.
  - by rewrite IH, addCondition_eq, WhereCondition_app.
Qed.

Lemma foldl_addColumnFilter (table : Table) (l : list Column) (q : fluentsql.QueryBuilder) :
  foldl (addColumnFilter table) q l
  = fluentsql.WhereCondition (columnFilter table <$> List.filter HasValue l) q.
Proof.
  revert q. induction l as [|c l IH]; intros q; simpl.
  - by rewrite WhereCondition_nil.
  - rewrite IH. unfold addColumnFilter.
    destruct (HasValue c); simpl; [|reflexivity].
    unfold fluentsql.Where. by rewrite WhereCondition_app.
Qed.

Lemma buildOne_base env db table getType reader :
  buildOne env db table getType reader
  = match orderOf table getType reader with
    | Returned (orderByField, orderByDir) =>
        Returned (fluentsql.OrderBy orderByField orderByDir (baseOne env db table))
    | Fatal msg => Fatal msg
    | Panicked msg => Panicked msg
    end.
Proof.
  unfold buildOne.
  destruct (orderOf table getType reader) as [[f d]| |]; try reflexivity.
  do 2 f_equal.
  set (q0 := fluentsql.SetLimit 1 0 _).
  transitivity (fluentsql.WhereCondition (whereOne env db table) q0); [|reflexivity].
  rewrite foldl_addCondition.
  unfold whereOne, structFilters, primaryFilter.
  destruct (HasData table); rewrite ?foldl_addColumnFilter;
    destruct (notNil _ && _); unfold fluentsql.Where;
    rewrite ?WhereCondition_app, ?app_nil_r, <- ?app_assoc; reflexivity.
Qed.

(** ** Single-row retrieval *)

Lemma recordOf_shape target r :
  recordOf target = Some r ->
  exists typ, TypeOf target = Some typ /\ isStructOrPtr typ = true
              /\ ModelData target = Some (describe r).
Proof.
  destruct target; simpl; intros [= <-]; eexists; (split; [reflexivity|]); by split.
Qed.

(** On a well-shaped target and without a raw query, GetOne runs the
    assembled query and resets the builder, unless the ordering part
    panics. *)
Lemma GetOne_record env db target r getType reader :
  raw_sqlStr db = "" ->
  recordOf target = Some r ->
  GetOne env db target getType reader
  = match orderOf (describe r) getType reader with
    | Returned (field, dir) =>
        let stmt := GetQuery target (fluentsql.OrderBy field dir (baseOne env db (describe r))) in
        mkRun (Returned (execute env stmt)) (reset db) [stmt]
    | Fatal msg => mkRun (Fatal msg) db []
    | Panicked msg => mkRun (Panicked msg) db []
    end.
Proof.
  intros Hraw Hrec. unfold GetOne. rewrite Hraw. simpl.
  destruct (recordOf_shape _ _ Hrec) as (typ & -> & -> & ->). simpl.
  rewrite buildOne_base.
  by destruct (orderOf (describe r) getType reader) as [[f d]| |].
Qed.

Lemma randInt_range max raw n : randInt max raw = Some n -> 0 <= n < max.
Proof.
  unfold randInt. destruct (Z.leb_spec max 0); [done|].
  intros [= <-]. apply Z.mod_pos_bound. lia.
Qed.

Lemma randInt_onto max n : 0 <= n < max -> randInt max n = Some n.
Proof.
  intros H. unfold randInt. destruct (Z.leb_spec max 0); [lia|].
  by rewrite Z.mod_small.
Qed.

Lemma randInt_nonpositive max raw : max <= 0 -> randInt max raw = None.
Proof. intros H. unfold randInt. destruct (Z.leb_spec max 0); [done|lia]. Qed.

Lemma orderFieldOf_first table c :
  Columns table !! 0%nat = Some c -> is_Some (orderFieldOf table).
Proof. intros H. unfold orderFieldOf. rewrite H. destruct (primaryKeyOf table); eauto. Qed.

(** What Take orders by when the record has at least two columns. *)
Lemma orderOf_take table reader :
  2 <= Z.of_nat (length (Columns table)) ->
  exists column,
    Columns table
      !! Z.to_nat (draw1 reader mod (Z.of_nat (length (Columns table)) - 1)) = Some column
    /\ orderOf table TakeOne reader = Returned (Name column, dirOf (draw2 reader mod 10)).
Proof.
  intros Hn.
  assert (Hi : 0 <= draw1 reader mod (Z.of_nat (length (Columns table)) - 1)
               < Z.of_nat (length (Columns table)) - 1) by (apply Z.mod_pos_bound; lia).
  destruct (lookup_lt_is_Some_2 (Columns table)
              (Z.to_nat (draw1 reader mod (Z.of_nat (length (Columns table)) - 1))))
    as [column Hc]; [lia|].
  exists column. split; [exact Hc|].
  destruct (lookup_lt_is_Some_2 (Columns table) 0%nat) as [c0 Hc0]; [lia|].
  destruct (orderFieldOf_first _ _ Hc0) as [f Hf].
  unfold orderOf. rewrite Hf. simpl.
  unfold randInt at 1. destruct (Z.leb_spec (Z.of_nat (length (Columns table)) - 1) 0); [lia|].
  by rewrite Hc.
Qed.

(** What First and Last order by. *)
Lemma orderOf_first_last table field reader :
  orderFieldOf table = Some field ->
  field <> "" ->
  orderOf table GetFirst reader = Returned (field, fluentsql.Asc)
  /\ orderOf table GetLast reader = Returned (field, fluentsql.Desc).
Proof.
  intros Hf Hne. unfold orderOf. rewrite Hf. simpl.
  by rewrite (bool_decide_eq_false_2 _ Hne).
Qed.

Lemma orderOf_returns table getType reader :
  orders table getType = true ->
  exists field dir, orderOf table getType reader = Returned (field, dir).
Proof.
  destruct getType; simpl; intros H%bool_decide_eq_true.
  - destruct H as [f Hf]. unfold orderOf. rewrite Hf. simpl.
    destruct (bool_decide (f = "")); simpl; eauto.
  - destruct H as [f Hf]. unfold orderOf. rewrite Hf. simpl.
    destruct (bool_decide (f = "")); simpl; eauto.
  - destruct (orderOf_take table reader H) as (c & _ & ->). eauto.
Qed.

(** The example of the documentation: [User{Id: 103}] and [First(&user)]
    on a fresh builder give WHERE Id = 103 ORDER BY Id ASC LIMIT 1. *)
Example First_user103 :
  executed (First okEnv emptyDB (PtrStructModel user103) [] someReader)
  = [GetQuery (PtrStructModel user103)
       (fluentsql.mkQuery [VString "*"] "users" []
          [fluentsql.mkCondition (VString "Id") fluentsql.Eq (VInt 103) fluentsql.And []]
          [] [] (Some (fluentsql.mkLimit 1 0)) None
          [fluentsql.mkOrderItem "Id" fluentsql.Asc])].
Proof. reflexivity. Qed.

Lemma filter_Primary_none fields :
  Forall (fun f => fieldPrimary f = false) fields ->
  List.filter Primary (columnOf <$> fields) = [].
Proof.
  induction 1 as [|f fields Hf _ IH]; simpl; [done|].
  by rewrite Hf.
Qed.

(** The key the builders look up is the first field declared as primary
    key. *)
Lemma primaryKeyOf_declared r before key after :
  structFields r = before ++ key :: after ->
  Forall (fun f => fieldPrimary f = false) before ->
  fieldPrimary key = true ->
  primaryKeyOf (describe r) = Some (fieldName key).
Proof.
  intros Hfields Hbefore Hkey. unfold primaryKeyOf, describe. simpl.
  rewrite Hfields, fmap_app, List.filter_app, (filter_Primary_none _ Hbefore).
  simpl. by rewrite Hkey.
Qed.

(** No key is looked up when no field is declared as primary key. *)
Lemma primaryKeyOf_undeclared r :
  Forall (fun f => fieldPrimary f = false) (structFields r) ->
  primaryKeyOf (describe r) = None.
Proof.
  intros Hnone. unfold primaryKeyOf, describe. simpl.
  by rewrite (filter_Primary_none _ Hnone).
Qed.

Lemma orderOf_first table field reader :
  orderFieldOf table = Some field ->
  orderOf table GetFirst reader = Returned (field, fluentsql.Asc).
Proof.
  intros Hf. unfold orderOf. rewrite Hf. simpl.
  by destruct (bool_decide (field = "")).
Qed.

(** C5. For a record type with a declared primary key P (the first field
    declared as primary key, wherever it stands among the fields), First
    assembles a query ordered ascending on P with limit 1 and offset 0, and
    Last the same query ordered descending on P; for a record type with no
    field declared as primary key they order by the first declared column.
    (No raw query is set and the target is a record or a pointer to one;
    the direction of Last is what the code guards by a non-empty name of
    the column.) *)
Theorem First_Last_order_by_primary_key env db target r args reader :
  raw_sqlStr db = "" ->
  recordOf target = Some r ->
  (forall before key after,
      structFields r = before ++ key :: after ->
      Forall (fun f => fieldPrimary f = false) before ->
      fieldPrimary key = true ->
      OrdersBy (First env db target args reader) target (fieldName key) fluentsql.Asc
      /\ (fieldName key <> "" ->
          OrdersBy (Last env db target reader) target (fieldName key) fluentsql.Desc))
  /\ (forall first rest,
         structFields r = first :: rest ->
         Forall (fun f => fieldPrimary f = false) (structFields r) ->
         OrdersBy (First env db target args reader) target (fieldName first) fluentsql.Asc
         /\ (fieldName first <> "" ->
             OrdersBy (Last env db target reader) target (fieldName first) fluentsql.Desc)).
Proof.
  intros Hraw Hrec.
  assert (Hboth : forall field,
             orderFieldOf (describe r) = Some field ->
             OrdersBy (First env db target args reader) target field fluentsql.Asc
             /\ (field <> "" ->
                 OrdersBy (Last env db target reader) target field fluentsql.Desc)).
  { intros field Hf. split.
    - unfold First. rewrite (GetOne_record env _ target r GetFirst reader);
        [|by destruct args|exact Hrec].
      rewrite (orderOf_first _ _ reader Hf). eexists. split; [reflexivity|]. by split.
    - intros Hne. destruct (orderOf_first_last _ _ reader Hf Hne) as [_ Hlast].
      unfold Last. rewrite (GetOne_record env db target r GetLast reader Hraw Hrec).
      rewrite Hlast. eexists. split; [reflexivity|]. by split. }
  split.
  - intros before key after Hfields Hbefore Hkey. apply Hboth. unfold orderFieldOf.
    by rewrite (primaryKeyOf_declared r before key after Hfields Hbefore Hkey).
  - intros first rest Hfields Hnone. apply Hboth. unfold orderFieldOf.
    rewrite (primaryKeyOf_undeclared r Hnone). unfold describe. simpl.
    by rewrite Hfields.
Qed.

Lemma First_Last_order_by_primary_key_witness :
  (OrdersBy (First okEnv emptyDB (PtrStructModel member) [] someReader)
            (PtrStructModel member) "Id" fluentsql.Asc
   /\ OrdersBy (Last okEnv emptyDB (PtrStructModel member) someReader)
               (PtrStructModel member) "Id" fluentsql.Desc)
  /\ (OrdersBy (First okEnv emptyDB (StructModel logLine) [] someReader)
               (StructModel logLine) "At" fluentsql.Asc
      /\ OrdersBy (Last okEnv emptyDB (StructModel logLine) someReader)
                  (StructModel logLine) "At" fluentsql.Desc).
Proof.
  split.
  - destruct (proj1 (First_Last_order_by_primary_key okEnv emptyDB (PtrStructModel member)
                       member [] someReader eq_refl eq_refl)
                    [mkField "Name" false false false (VString "")]
                    (mkField "Id" true false false (VInt 0)) []
                    eq_refl ltac:(repeat constructor) eq_refl) as [Hfirst Hlast].
    split; [exact Hfirst|apply Hlast; discriminate].
  - destruct (proj2 (First_Last_order_by_primary_key okEnv emptyDB (StructModel logLine)
                       logLine [] someReader eq_refl eq_refl)
                    (mkField "At" false false false (VInt 0))
                    [mkField "Text" false false false (VString "")]
                    eq_refl ltac:(repeat constructor)) as [Hfirst Hlast].
    split; [exact Hfirst|apply Hlast; discriminate].
Defined.



(** C10. Take draws the index of its order-by column from [0, n-1) for a
    record of n columns: every index below n-1 can come out, the last
    declared column never does, and for a record of exactly one column the
    draw is made with an upper bound of zero, so that the call panics
    instead of returning an error. *)
Theorem Take_index_below_last_column env db target r reader :
  raw_sqlStr db = "" ->
  recordOf target = Some r ->
  let n := Z.of_nat (length (Columns (describe r))) in
  (2 <= n ->
   exists i column q,
     randInt (n - 1) (draw1 reader) = Some i
     /\ 0 <= i < n - 1
     /\ Columns (describe r) !! Z.to_nat i = Some column
     /\ executed (Take env db target reader) = [GetQuery target q]
     /\ fluentsql.orderByItems q
        = [fluentsql.mkOrderItem (Name column) (dirOf (draw2 reader mod 10))])
  /\ (forall i, 0 <= i < n - 1 -> randInt (n - 1) i = Some i)
  /\ (n = 1 ->
      randInt (n - 1) (draw1 reader) = None
      /\ (exists msg, result (Take env db target reader) = Panicked msg)
      /\ executed (Take env db target reader) = []).
Proof.
  intros Hraw Hrec n. split; [|split].
  - intros Hn.
    destruct (orderOf_take (describe r) reader Hn) as (column & Hc & Hord).
    exists (draw1 reader mod (n - 1)), column.
    unfold Take. rewrite (GetOne_record env db target r TakeOne reader Hraw Hrec), Hord.
    eexists. split; [|split; [|split; [exact Hc|split; reflexivity]]].
    + unfold randInt. destruct (Z.leb_spec (n - 1) 0); [lia|reflexivity].
    + apply Z.mod_pos_bound. lia.
  - intros i Hi. by apply randInt_onto.
  - intros Hn. unfold Take.
    rewrite (GetOne_record env db target r TakeOne reader Hraw Hrec).
    assert (Hnone : randInt (n - 1) (draw1 reader) = None)
      by (apply randInt_nonpositive; lia).
    split; [exact Hnone|].
    unfold orderOf. fold n. rewrite Hnone.
    destruct (orderFieldOf (describe r)); simpl; split; eauto.
Qed.

Lemma Take_index_below_last_column_witness :
  (exists i column q,
      randInt 2 (draw1 someReader) = Some i
      /\ 0 <= i < 2
      /\ Columns (describe user103) !! Z.to_nat i = Some column
      /\ executed (Take okEnv emptyDB (PtrStructModel user103) someReader) 
        = [GetQuery (PtrStructModel user103) q]
      /\ fluentsql.orderByItems q
         = [fluentsql.mkOrderItem (Name column) (dirOf (draw2 someReader mod 10))])
  /\ (randInt 0 (draw1 someReader) = None
      /\ (exists msg, result (Take okEnv emptyDB (StructModel counter) someReader)
                      = Panicked msg)
      /\ executed (Take okEnv emptyDB (StructModel counter) someReader) = []).
Proof.
  split.
  - apply (proj1 (Take_index_below_last_column okEnv emptyDB (PtrStructModel user103)
                    user103 someReader eq_refl eq_refl)).
    vm_compute. discriminate.
  - apply (proj2 (proj2 (Take_index_below_last_column okEnv emptyDB (StructModel counter)
                           counter someReader eq_refl eq_refl))).
    reflexivity.
Defined.

(** C4. Take on a well-shaped record does not range over all declared
    columns and does not always produce a query: on a record of a single
    column it panics whatever the random source gives, handing nothing to
    the database, and on a record of two columns it orders by the first one
    for every draw, the last declared column never being chosen. *)
Theorem Take_single_column_panics env reader :
  (result (Take env emptyDB (PtrStructModel counter) reader)
   = Panicked "crypto/rand: argument to Int is <= 0"
   /\ executed (Take env emptyDB (PtrStructModel counter) reader) = [])
  /\ (exists q,
         executed (Take env emptyDB (PtrStructModel logLine) reader) 
           = [GetQuery (PtrStructModel logLine) q]
         /\ Name <$> Columns (describe logLine) = ["At"; "Text"]
         /\ fluentsql.orderByItems q
            = [fluentsql.mkOrderItem "At" (dirOf (draw2 reader mod 10))]).
Proof.
  split; [split; reflexivity|].
  unfold Take. rewrite (GetOne_record env emptyDB (PtrStructModel logLine) logLine TakeOne reader
             eq_refl eq_refl).
  unfold orderOf. simpl. unfold randInt. simpl. rewrite Z.mod_1_r. simpl.
  eexists. split; [reflexivity|]. by split.
Qed.

(** ** Reset of the builder state *)

(** Whenever GetOne hands a statement to the database it resets the
    builder, whatever the database answers. *)
Lemma GetOne_resets_after_execution env db target getType reader :
  executed (GetOne env db target getType reader) <> [] ->
  builder (GetOne env db target getType reader) = emptyDB.
Proof.
  unfold GetOne.
  destruct (negb (bool_decide (raw_sqlStr db = ""))); [done|].
  destruct (TypeOf target) as [typ|]; [|done].
  destruct (negb (isStructOrPtr typ)); [done|].
  destruct (ModelData target) as [table|]; [|done].
  by destruct (buildOne env db table getType reader).
Qed.

(** A shape error of GetOne returns with the builder as it was. *)
Lemma GetOne_shape_error_keeps_builder env db target typ getType reader :
  raw_sqlStr db = "" ->
  TypeOf target = Some typ ->
  isStructOrPtr typ = false ->
  GetOne env db target getType reader
  = mkRun (Returned (Some "invalid data :: model not Struct type")) db [].
Proof. intros Hraw Htyp Hshape. unfold GetOne. by rewrite Hraw, Htyp, Hshape. Qed.

(** So does a shape error of Find. *)
Lemma Find_shape_error_keeps_builder env db target typ params :
  raw_sqlStr db = "" ->
  TypeOf target = Some typ ->
  isPtrSlice typ = false ->
  Find env db target params
  = mkRun (Returned (0, Some "invalid data :: model not *Slice type")) db [].
Proof. intros Hraw Htyp Hshape. unfold Find. by rewrite Hraw, Htyp, Hshape. Qed.

(** And so does an error of the row query or of the count query of Find. *)
Lemma runMany_error_keeps_builder env db target table total err :
  result (runMany env db target table) = Returned (total, Some err) ->
  builder (runMany env db target table) = db.
Proof.
  unfold runMany. destruct (execute env (SelectQuery _ _)); [done|].
  by destruct (count env _) as [[? [?|]] ?].
Qed.

(** C2. The builder state is not reset on every exit path.  A shape error
    of Find, a shape error of First, an invalid id list given to Find and
    an execution error of Find's row query each return with the configured
    state still in place, and a later Last on the same builder then filters
    by the stale condition. *)
Theorem reset_skipped_on_error_exits :
  (result (Find okEnv filteredDB (StructModel user103) [])
   = Returned (0, Some "invalid data :: model not *Slice type")
   /\ builder (Find okEnv filteredDB (StructModel user103) []) = filteredDB)
  /\ (result (First okEnv emptyDB (BasicModel (VInt 42)) [VInt 7] someReader)
      = Returned (Some "invalid data :: model not Struct type")
      /\ fluentsql.Value
           (wherePrimaryCondition
              (builder (First okEnv emptyDB (BasicModel (VInt 42)) [VInt 7] someReader)))
         = VInt 7)
  /\ (result (Find okEnv filteredDB (PtrSliceModel user103) [VInt 5])
      = Returned (0, Some "invalid data :: params not Slice type")
      /\ builder (Find okEnv filteredDB (PtrSliceModel user103) [VInt 5]) = filteredDB)
  /\ (result (Find failingEnv filteredDB (PtrSliceModel user103) [])
      = Returned (0, Some "driver: bad connection")
      /\ builder (Find failingEnv filteredDB (PtrSliceModel user103) []) = filteredDB)
  /\ filteredDB <> emptyDB
  /\ (exists q,
         executed (Last okEnv (builder (Find okEnv filteredDB (StructModel user103) []))
                        (PtrStructModel user103) someReader)
         = [GetQuery (PtrStructModel user103) q]
         /\ ageIsOne ∈ fluentsql.whereConditions q).
Proof.
  repeat split; try reflexivity; try discriminate.
  eexists. split; [reflexivity|]. simpl. apply list_elem_of_here.
Qed.

(** ** Multi-row retrieval *)

Lemma foldl_preserves {A B C : Type} (f : A -> B -> A) (p : A -> C) :
  (forall a b, p (f a b) = p a) -> forall l a, p (foldl f a l) = p a.
Proof.
  intros Hf l. induction l as [|b l IH]; intros a; simpl; [done|].
  by rewrite IH, Hf.
Qed.


(** The count query does not see the pagination and ordering clauses. *)
Lemma countQueryOf_paginate db q : countQueryOf (paginate db q) = countQueryOf q.
Proof.
  unfold paginate. rewrite foldl_preserves; [|done].
  destruct (0 <? fluentsql.FetchCount _); destruct (0 <? fluentsql.LimitCount _); done.
Qed.



(** The filters of Find do not depend on the configured limit. *)
Lemma filterMany_limit env db table params limit :
  filterMany env (mergeIds (set_limitStatement limit db) table params) table
  = filterMany env (mergeIds db table params) table.
Proof. unfold mergeIds. destruct params, (primaryKeyOf table); reflexivity. Qed.

Lemma runMany_rows env db target table :
  head (executed (runMany env db target table)) = Some (SelectQuery target (buildMany env db table)).
Proof.
  unfold runMany. destruct (execute env _); [done|].
  by destruct (count env _) as [[? [?|]] ?].
Qed.

Lemma runMany_success env db target table total :
  result (runMany env db target table) = Returned (total, None) ->
  executed (runMany env db target table)
  = [SelectQuery target (buildMany env db table);
     CountQuery (countQueryOf (buildMany env db table))]
  /\ total = countRows env (countQueryOf (buildMany env db table))
  /\ builder (runMany env db target table) = emptyDB.
Proof.
  unfold runMany, count. destruct (execute env (SelectQuery _ _)); [done|].
  destruct (execute env (CountQuery _)); [done|]. simpl. by intros [= <-].
Qed.

(** A Find that returns without error went through the structured path on
    a pointer to a slice of records. *)
Lemma Find_success env db target params total :
  raw_sqlStr db = "" ->
  result (Find env db target params) = Returned (total, None) ->
  exists elem,
    target = PtrSliceModel elem
    /\ Find env db target params
       = runMany env (mergeIds db (processModel elem) params) (PtrSliceModel elem)
           (processModel elem).
Proof.
  intros Hraw. unfold Find. rewrite Hraw. simpl.
  destruct target as [v|r|r|elem|i es]; simpl; try done.
  - by destruct v.
  - intros H. exists elem. split; [done|]. revert H. unfold mergeIds.
    destruct params as [|ids rest]; [done|].
    destruct (primaryKeyOf (processModel elem)) as [P|]; [|done].
    destruct (valueKind ids) as [k|]; [|done].
    by destruct (negb (bool_decide (k = KSlice))).
Qed.

(** A nil interface given as id list makes Find panic on the read of the
    kind of its type, before anything is executed and without a reset. *)
Lemma Find_nil_param_panics env db elem P rest :
  raw_sqlStr db = "" ->
  primaryKeyOf (processModel elem) = Some P ->
  Find env db (PtrSliceModel elem) (VNil :: rest)
  = mkRun (Panicked "invalid memory address or nil pointer dereference") db [].
Proof. intros Hraw HP. unfold Find. rewrite Hraw. simpl. by rewrite HP. Qed.

(** C7. Find on a target type with a primary key does not answer every
    id-list argument that is not a sequence with the "invalid params"
    error: for the nil interface it panics on the read of the kind of the
    argument's type, nothing being executed and the builder being left as
    it was, while a typed value that is not a slice gets the error. *)
Theorem Find_nil_id_list_panics env :
  primaryKeyOf (processModel user103) = Some "Id"
  /\ result (Find env filteredDB (PtrSliceModel user103) [VNil])
     = Panicked "invalid memory address or nil pointer dereference"
  /\ executed (Find env filteredDB (PtrSliceModel user103) [VNil]) = []
  /\ builder (Find env filteredDB (PtrSliceModel user103) [VNil]) = filteredDB
  /\ result (Find env filteredDB (PtrSliceModel user103) [VInt 5])
     = Returned (0, Some "invalid data :: params not Slice type").
Proof. repeat split. Qed.



(** C6. For two Find calls that differ only in the configured limit and
    offset and that both return a total, the totals are equal; the
    companion count query that produces the total has the filters of the
    row query and no limit, offset, fetch or order clause, and is the same
    for both calls. *)
Theorem Find_total_independent_of_limit env db target params limit1 limit2 total1 total2 :
  result (Find env (set_limitStatement limit1 db) target params) = Returned (total1, None) ->
  result (Find env (set_limitStatement limit2 db) target params) = Returned (total2, None) ->
  total1 = total2
  /\ (raw_sqlStr db = "" ->
      exists q1 q2,
        executed (Find env (set_limitStatement limit1 db) target params)
        = [SelectQuery target q1; CountQuery (countQueryOf q1)]
        /\ executed (Find env (set_limitStatement limit2 db) target params)
           = [SelectQuery target q2; CountQuery (countQueryOf q2)]
        /\ countQueryOf q1 = countQueryOf q2
        /\ total1 = countRows env (countQueryOf q1)
        /\ fluentsql.whereConditions (countQueryOf q1) = fluentsql.whereConditions q1
        /\ fluentsql.joinItems (countQueryOf q1) = fluentsql.joinItems q1
        /\ fluentsql.groupByItems (countQueryOf q1) = fluentsql.groupByItems q1
        /\ fluentsql.havingConditions (countQueryOf q1) = fluentsql.havingConditions q1
        /\ fluentsql.limitClause (countQueryOf q1) = None
        /\ fluentsql.fetchClause (countQueryOf q1) = None
        /\ fluentsql.orderByItems (countQueryOf q1) = []).
Proof.
  intros H1 H2.
  destruct (decide (raw_sqlStr db = "")) as [Hraw|Hraw].
  - destruct (Find_success env (set_limitStatement limit1 db) _ _ _ Hraw H1)
      as (elem & -> & E1).
    destruct (Find_success env (set_limitStatement limit2 db) _ _ _ Hraw H2)
      as (elem' & [= <-] & E2).
    rewrite E1 in H1 |- *. rewrite E2 in H2 |- *.
    destruct (runMany_success _ _ _ _ _ H1) as (X1 & T1 & _).
    destruct (runMany_success _ _ _ _ _ H2) as (X2 & T2 & _).
    assert (Hc : countQueryOf (buildMany env (mergeIds (set_limitStatement limit1 db)
                                                 (processModel elem) params)
                                 (processModel elem))
                 = countQueryOf (buildMany env (mergeIds (set_limitStatement limit2 db)
                                                  (processModel elem) params)
                                   (processModel elem))).
    { unfold buildMany. by rewrite !countQueryOf_paginate, !filterMany_limit. }
    split; [by rewrite T1, T2, Hc|].
    intros _. eexists _, _. rewrite X1, X2.
    split; [reflexivity|]. split; [reflexivity|]. split; [exact Hc|].
    split; [exact T1|]. by repeat split.
  - split; [|done].
    revert H1 H2. unfold Find. simpl.
    rewrite (bool_decide_eq_false_2 _ Hraw). simpl. congruence.
Qed.

Lemma Find_total_independent_of_limit_witness :
  42 = 42
  /\ exists q1 q2,
      executed (Find okEnv pagedDB (PtrSliceModel user103) [])
      = [SelectQuery (PtrSliceModel user103) q1; CountQuery (countQueryOf q1)]
      /\ executed (Find okEnv filteredDB (PtrSliceModel user103) [])
         = [SelectQuery (PtrSliceModel user103) q2; CountQuery (countQueryOf q2)]
      /\ countQueryOf q1 = countQueryOf q2
      /\ 42 = countRows okEnv (countQueryOf q1)
      /\ fluentsql.whereConditions (countQueryOf q1) = fluentsql.whereConditions q1
      /\ fluentsql.joinItems (countQueryOf q1) = fluentsql.joinItems q1
      /\ fluentsql.groupByItems (countQueryOf q1) = fluentsql.groupByItems q1
      /\ fluentsql.havingConditions (countQueryOf q1) = fluentsql.havingConditions q1
      /\ fluentsql.limitClause (countQueryOf q1) = None
      /\ fluentsql.fetchClause (countQueryOf q1) = None
      /\ fluentsql.orderByItems (countQueryOf q1) = [].
Proof.
  destruct (Find_total_independent_of_limit okEnv filteredDB (PtrSliceModel user103) []
              (fluentsql.mkLimit 10 20) (fluentsql.mkLimit 0 0) 42 42 eq_refl eq_refl)
    as [Ht Hq].
  split; [exact Ht|]. exact (Hq eq_refl).
Defined.

(** ** Update *)

Lemma UWhereCondition_nil (u : fluentsql.UpdateBuilder) : fluentsql.UWhereCondition [] u = u.
Proof. destruct u; unfold fluentsql.UWhereCondition; simpl. by rewrite app_nil_r. Qed.

Lemma addUpdateCondition_eq u b c :
  addUpdateCondition (u, b) c = (fluentsql.UWhereCondition [asAdded c] u, true).
Proof.
  unfold addUpdateCondition, asAdded. simpl.
  destruct (fluentsql.Group c); [destruct (fluentsql.AndOr c)|]; reflexivity.
Qed.

(** The loop over the configured conditions appends them in order, and
    records a condition as soon as there is one. *)
Lemma foldl_addUpdateCondition l u b :
  foldl addUpdateCondition (u, b) l
  = (fluentsql.UWhereCondition (asAdded <$> l) u, match l with [] => b | _ => true end).
Proof.
  revert u b. induction l as [|c l IH]; intros u b; simpl.
  - by rewrite UWhereCondition_nil.
  - rewrite addUpdateCondition_eq, IH, UWhereCondition_app. by destruct l.
Qed.

Lemma foldl_addSet table l u :
  foldl (addSet table) u l
  = fluentsql.mkUpdate (fluentsql.updateTable u) (fluentsql.updateWhere u)
      (fluentsql.updateSet u
         ++ ((fun column => (Name column, valueOf table (Name column)))
               <$> List.filter HasValue l)).
Proof.
  revert u. induction l as [|c l IH]; intros u; simpl.
  - destruct u; simpl. by rewrite app_nil_r.
  - rewrite IH. unfold addSet. destruct (HasValue c); simpl; [|reflexivity].
    by rewrite <- app_assoc.
Qed.

(** updateByStruct on a record: without a condition nothing is executed;
    otherwise the update carries the assembled conditions and one SET pair
    per populated column. *)
Lemma updateByStruct_record env db target r :
  recordOf target = Some r ->
  updateByStruct env db target
  = let table := describe r in
    let db' := set_wherePrimaryCondition (primaryCondition (collect db table)) db in
    match whereUpdate db table with
    | [] => mkRun (Returned (Some missingWhere)) db' []
    | conds =>
        let stmt := UpdateStmt (fluentsql.mkUpdate (TableName table) conds (setPairs table)) in
        mkRun (Returned (execute env stmt)) db' [stmt]
    end.
Proof.
  intros Hrec. unfold updateByStruct.
  destruct (recordOf_shape _ _ Hrec) as (typ & _ & _ & ->). cbn zeta.
  change (wherePrimaryCondition
            (set_wherePrimaryCondition (primaryCondition (collect db (describe r))) db))
    with (primaryCondition (collect db (describe r))).
  change (whereStatement
            (set_wherePrimaryCondition (primaryCondition (collect db (describe r))) db))
    with (whereStatement db).
  unfold whereUpdate, primaryCond. cbn zeta.
  destruct (notNil _ && _); rewrite foldl_addUpdateCondition;
    destruct (whereStatement db) as [|c l]; cbn [negb fmap list_fmap app];
    rewrite ?foldl_addSet; reflexivity.
Qed.

(** When updateByStruct executes, the SET clause has exactly the populated
    columns of the record. *)
Lemma updateByStruct_set_clause env db target r u :
  recordOf target = Some r ->
  executed (updateByStruct env db target) = [UpdateStmt u] ->
  fluentsql.updateSet u = setPairs (describe r).
Proof.
  intros Hrec. rewrite (updateByStruct_record env db target r Hrec). cbn zeta.
  destruct (whereUpdate db (describe r)); simpl; [done|]. by intros [= <-].
Qed.

(** C3. In the full-model Update path the SET clause is not restricted to
    the updatable, non-omitted columns: with Name in the omit list and
    populated, Name is still a SET pair, although the column list the first
    loop collects leaves it out; and an auto-generated primary key and a
    populated read-only column are SET pairs as well. *)
Theorem Update_sets_omitted_and_read_only_columns :
  (exists u,
      executed (Update okEnv omitNameDB (StructModel userCat)) = [UpdateStmt u]
      /\ columns (collect omitNameDB (describe userCat)) = ["Id"; "Age"]
      /\ fluentsql.updateSet u
         = [("Id", VInt 7); ("Name", VString "Cat"); ("Age", VInt 42)])
  /\ (exists u,
         executed (Update okEnv filteredDB (StructModel article)) = [UpdateStmt u]
         /\ columns (collect filteredDB (describe article)) = ["Title"]
         /\ fluentsql.updateSet u
            = [("Id", VInt 9); ("Title", VString "Draft"); ("CreatedAt", VInt 1700000000)]).
Proof. split; eexists; (split; [reflexivity|]); split; reflexivity. Qed.

(** C1, as it is stated, fails on the map path when no model is bound: no
    primary-key condition holds a value and no where-condition is
    configured, and Update fails with the "missing model" error, not with
    the "missing WHERE condition" one. *)
Lemma Update_map_without_model_counterexample :
  raw_sqlStr emptyDB = ""
  /\ onUpdatePath (MapModel true [("Name", VString "Cat")]) = true
  /\ notNil (fluentsql.Value (effectivePrimary emptyDB (MapModel true [("Name", VString "Cat")])))
     = false
  /\ whereStatement emptyDB = []
  /\ result (Update okEnv emptyDB (MapModel true [("Name", VString "Cat")])) = Fatal missingModel
  /\ ~ (result (Update okEnv emptyDB (MapModel true [("Name", VString "Cat")]))
        = Fatal missingWhere
        /\ executed (Update okEnv emptyDB (MapModel true [("Name", VString "Cat")])) = []).
Proof. repeat split; try reflexivity. intros [H _]. discriminate H. Qed.

(** C1, amended.  For every Update on the struct path, or on the map path
    with a bound model, without a raw query, in which neither the
    primary-key condition holds a non-nil value nor any where-condition is
    configured, the operation fails with the "missing WHERE condition"
    error and nothing is executed.  On the map path without a bound model
    it fails with the "missing model" error, and nothing is executed
    either. *)
Theorem Update_without_condition_fails env db target :
  raw_sqlStr db = "" ->
  onUpdatePath target = true ->
  notNil (fluentsql.Value (effectivePrimary db target)) = false ->
  whereStatement db = [] ->
  (is_Some (updatedTable db target) ->
   result (Update env db target) = Fatal missingWhere
   /\ executed (Update env db target) = [])
  /\ (updatedTable db target = None ->
      result (Update env db target) = Fatal missingModel
      /\ executed (Update env db target) = []).
Proof.
  intros Hraw Hpath Hnil Hwhere.
  assert (Hstruct : forall db0 tgt r,
             recordOf tgt = Some r ->
             whereStatement db0 = [] ->
             notNil (fluentsql.Value (primaryCondition (collect db0 (describe r)))) = false ->
             updateByStruct env db0 tgt
             = mkRun (Returned (Some missingWhere))
                 (set_wherePrimaryCondition (primaryCondition (collect db0 (describe r))) db0)
                 []).
  { intros db0 tgt r Hrec Hw Hn. rewrite (updateByStruct_record env db0 tgt r Hrec).
    cbn zeta. unfold whereUpdate, primaryCond. cbn zeta. by rewrite Hn, Hw. }
  unfold Update, dispatch. rewrite Hraw. simpl.
  destruct target as [v|r|r|elem|iface entries]; try discriminate Hpath; simpl.
  - unfold effectivePrimary in Hnil. simpl in Hnil.
    rewrite (Hstruct db (StructModel r) r eq_refl Hwhere Hnil). simpl.
    split; [done|]. intros [=].
  - unfold effectivePrimary in Hnil. simpl in Hnil.
    rewrite (Hstruct db (PtrStructModel r) r eq_refl Hwhere Hnil). simpl.
    split; [done|]. intros [=].
  - unfold effectivePrimary in Hnil. simpl in Hnil. unfold updateByMap.
    destruct (model db) as [bound|]; simpl in *.
    + rewrite (Hstruct _ (PtrStructModel (applyMap iface entries bound)) _ eq_refl);
        [|exact Hwhere|exact Hnil]. simpl.
      split; [done|]. intros [=].
    + split; [intros [? [=]]|done].
Qed.

Lemma Update_without_condition_fails_witness :
  (result (Update okEnv emptyDB (StructModel logLine)) = Fatal missingWhere
   /\ executed (Update okEnv emptyDB (StructModel logLine)) = [])
  /\ (result (Update okEnv emptyDB (MapModel true [("Name", VString "Cat")]))
      = Fatal missingModel
      /\ executed (Update okEnv emptyDB (MapModel true [("Name", VString "Cat")])) = []).
Proof.
  split.
  - apply (proj1 (Update_without_condition_fails okEnv emptyDB (StructModel logLine)
                    eq_refl eq_refl eq_refl eq_refl)).
    vm_compute. eauto.
  - apply (proj2 (Update_without_condition_fails okEnv emptyDB
                    (MapModel true [("Name", VString "Cat")])
                    eq_refl eq_refl eq_refl eq_refl)).
    reflexivity.
Defined.

(** C9. Whenever the path Update dispatches to (raw query, map, or struct)
    returns a non-nil error, Update ends in the fatal logger with that
    error instead of returning it; hence the error Update returns is nil
    whenever it returns, also when the argument is neither a map nor a
    record or pointer to a record, in which case nothing is executed. *)
Theorem Update_error_is_fatal env db target :
  (forall err,
      result (dispatch env db target) = Returned (Some err) ->
      result (Update env db target) = Fatal err)
  /\ (forall err, result (Update env db target) = Returned err -> err = None)
  /\ (forall typ,
         raw_sqlStr db = "" ->
         TypeOf target = Some typ ->
         kind typ <> KMap ->
         isStructOrPtr typ = false ->
         result (Update env db target) = Returned None
         /\ executed (Update env db target) = []).
Proof.
  split; [|split].
  - intros err H. unfold Update. by rewrite H.
  - intros err. unfold Update.
    destruct (result (dispatch env db target)) as [[e|]| |]; simpl; congruence.
  - intros typ Hraw Htyp Hmap Hshape. unfold Update, dispatch.
    rewrite Hraw, Htyp. simpl.
    by rewrite (bool_decide_eq_false_2 _ Hmap), Hshape.
Qed.

Lemma Update_error_is_fatal_witness :
  result (Update failingEnv filteredDB (StructModel userCat)) = Fatal "driver: bad connection"
  /\ None = (None : error)
  /\ (result (Update okEnv filteredDB (BasicModel (VInt 5))) = Returned None
      /\ executed (Update okEnv filteredDB (BasicModel (VInt 5))) = []).
Proof.
  split; [|split].
  - apply (proj1 (Update_error_is_fatal failingEnv filteredDB (StructModel userCat))).
    reflexivity.
  - apply (proj1 (proj2 (Update_error_is_fatal okEnv filteredDB (StructModel userCat))) None).
    reflexivity.
  - apply (proj2 (proj2 (Update_error_is_fatal okEnv filteredDB (BasicModel (VInt 5))))
                 (mkType KInt None)); [reflexivity|reflexivity|discriminate|reflexivity].
Defined.

(** * Further properties of the builders *)

(** ** GetOne, First, Last, Take *)

(** X1. GetOne hands at most one statement to the database: the raw text
    through Get, or the assembled query through db.get, with the target as
    destination.  When it hands none, it leaves the builder as it received
    it; when it hands one, it returns the answer of the database to that
    statement and the builder is reset, whatever the answer. *)
Theorem GetOne_statement_and_builder env db target getType reader :
  (executed (GetOne env db target getType reader) = []
   /\ builder (GetOne env db target getType reader) = db)
  \/ (exists stmt,
         executed (GetOne env db target getType reader) = [stmt]
         /\ (stmt = RawGet (tx db) target (raw_sqlStr db) (raw_args db)
             \/ exists q, stmt = GetQuery target q)
         /\ builder (GetOne env db target getType reader) = emptyDB
         /\ result (GetOne env db target getType reader) = Returned (execute env stmt)).
Proof.
  unfold GetOne.
  destruct (negb (bool_decide (raw_sqlStr db = "")));
    [right; eexists; split; [reflexivity|split; [by left|by split]]|].
  destruct (TypeOf target) as [typ|]; [|by left].
  destruct (negb (isStructOrPtr typ)); [by left|].
  destruct (ModelData target) as [table|]; [|by left].
  destruct (buildOne env db table getType reader) as [q| |]; [right|by left|by left].
  eexists. split; [reflexivity|]. split; [right; by exists q|by split].
Qed.

(** X2. On a well-shaped target and without a raw query, the query of
    GetOne selects the configured columns (or all), from the table of the
    record, with limit 1 and offset 0 and a single order item; the joins,
    group-by, having, limit, fetch and order-by configured in the builder do
    not reach it. *)
Theorem GetOne_query_clauses env db target r getType reader :
  raw_sqlStr db = "" ->
  recordOf target = Some r ->
  orders (describe r) getType = true ->
  exists field dir,
    executed (GetOne env db target getType reader)
    = [GetQuery target
         (fluentsql.mkQuery (selectColumnsOf db) (TableName (describe r)) []
            (whereOne env db (describe r)) [] []
            (Some (fluentsql.mkLimit 1 0)) None
            [fluentsql.mkOrderItem field dir])].
Proof.
  intros Hraw Hrec Hord.
  rewrite (GetOne_record env db target r getType reader Hraw Hrec).
  destruct (orderOf_returns _ _ reader Hord) as (f & d & ->).
  by exists f, d.
Qed.

Lemma GetOne_query_clauses_witness :
  exists field dir,
    executed (GetOne okEnv fullDB (PtrStructModel userZero) GetLast someReader)
    = [GetQuery (PtrStructModel userZero)
         (fluentsql.mkQuery [VString "Id"; VString "Name"] "users" [] [ageIsOne] [] []
            (Some (fluentsql.mkLimit 1 0)) None
            [fluentsql.mkOrderItem field dir])].
Proof.
  exact (GetOne_query_clauses okEnv fullDB (PtrStructModel userZero) userZero GetLast
           someReader eq_refl eq_refl eq_refl).
Defined.

(** X3. For a record type without any column, First, Last and Take panic on
    the read of the first column: nothing is executed and the builder is
    not reset. *)
Theorem GetOne_no_columns_panics env db target r getType reader :
  raw_sqlStr db = "" ->
  recordOf target = Some r ->
  structFields r = [] ->
  (exists msg, result (GetOne env db target getType reader) = Panicked msg)
  /\ executed (GetOne env db target getType reader) = []
  /\ builder (GetOne env db target getType reader) = db.
Proof.
  intros Hraw Hrec Hnone.
  rewrite (GetOne_record env db target r getType reader Hraw Hrec).
  unfold orderOf, orderFieldOf, primaryKeyOf, describe. rewrite Hnone. simpl. eauto.
Qed.

Lemma GetOne_no_columns_panics_witness :
  (exists msg, result (GetOne okEnv filteredDB (StructModel bare) GetFirst someReader)
               = Panicked msg)
  /\ executed (GetOne okEnv filteredDB (StructModel bare) GetFirst someReader) = []
  /\ builder (GetOne okEnv filteredDB (StructModel bare) GetFirst someReader) = filteredDB.
Proof.
  exact (GetOne_no_columns_panics okEnv filteredDB (StructModel bare) bare GetFirst
           someReader eq_refl eq_refl eq_refl).
Defined.

(** X4. The first positional argument of First replaces whatever
    primary-key condition the builder held, and the arguments after the
    first are not looked at. *)
Theorem First_argument_replaces_primary_condition env db condition target arg0 args reader :
  First env (set_wherePrimaryCondition condition db) target (arg0 :: args) reader
  = First env db target [arg0] reader.
Proof. reflexivity. Qed.

(** X5. For a record type without a primary key, neither the arguments of
    First nor a primary-key condition held by the builder have any effect
    on the statement executed and on the result. *)
Theorem First_without_primary_key_ignores_argument env db target r args reader :
  raw_sqlStr db = "" ->
  recordOf target = Some r ->
  primaryKeyOf (describe r) = None ->
  executed (First env db target args reader)
  = executed (First env (set_wherePrimaryCondition zeroCondition db) target [] reader)
  /\ result (First env db target args reader)
     = result (First env (set_wherePrimaryCondition zeroCondition db) target [] reader).
Proof.
  intros Hraw Hrec Hpk. unfold First.
  rewrite (GetOne_record env _ target r GetFirst reader); [|by destruct args|exact Hrec].
  rewrite (GetOne_record env _ target r GetFirst reader); [|exact Hraw|exact Hrec].
  assert (Hbase : forall db1 db2,
             whereStatement db1 = whereStatement db2 -> model db1 = model db2 ->
             selectStatement db1 = selectStatement db2 ->
             baseOne env db1 (describe r) = baseOne env db2 (describe r)).
  { intros db1 db2 Hw Hm Hs. unfold baseOne, whereOne, primaryFilter, selectColumnsOf.
    rewrite Hpk, Hw, Hm, Hs. simpl. by rewrite !andb_false_r. }
  rewrite (Hbase _ (set_wherePrimaryCondition zeroCondition db)); [|by destruct args..].
  by destruct (orderOf (describe r) GetFirst reader) as [[f d]| |].
Qed.

Lemma First_without_primary_key_ignores_argument_witness :
  executed (First okEnv filteredDB (StructModel logLine) [VInt 9] someReader)
  = executed (First okEnv (set_wherePrimaryCondition zeroCondition filteredDB)
                    (StructModel logLine) [] someReader)
  /\ result (First okEnv filteredDB (StructModel logLine) [VInt 9] someReader)
     = result (First okEnv (set_wherePrimaryCondition zeroCondition filteredDB)
                     (StructModel logLine) [] someReader).
Proof.
  exact (First_without_primary_key_ignores_argument okEnv filteredDB (StructModel logLine)
           logLine [VInt 9] someReader eq_refl eq_refl eq_refl).
Defined.

(** X6. Take can come to every column but the last, in either direction:
    for each index below n-1 and each direction there is an outcome of the
    random source for which Take orders by that column in that
    direction. *)
Theorem Take_reaches_every_allowed_order env db target r i column dir :
  raw_sqlStr db = "" ->
  recordOf target = Some r ->
  0 <= i < Z.of_nat (length (Columns (describe r))) - 1 ->
  Columns (describe r) !! Z.to_nat i = Some column ->
  exists reader, OrdersBy (Take env db target reader) target (Name column) dir.
Proof.
  intros Hraw Hrec Hi Hc.
  exists (mkReader i (match dir with fluentsql.Asc => 1 | fluentsql.Desc => 0 end)).
  unfold Take. rewrite (GetOne_record env db target r TakeOne _ Hraw Hrec).
  destruct (orderOf_take (describe r)
              (mkReader i (match dir with fluentsql.Asc => 1 | fluentsql.Desc => 0 end)))
    as (c & Hc' & ->); [lia|].
  cbn [draw1 draw2] in *. rewrite Z.mod_small in Hc' by lia. rewrite Hc in Hc'.
  injection Hc' as <-. cbn zeta.
  eexists. split; [reflexivity|]. split; [|reflexivity].
  by destruct dir.
Qed.

Lemma Take_reaches_every_allowed_order_witness :
  exists reader,
    OrdersBy (Take okEnv emptyDB (PtrStructModel user103) reader) (PtrStructModel user103)
             "Name" fluentsql.Desc.
Proof.
  apply (Take_reaches_every_allowed_order okEnv emptyDB (PtrStructModel user103) user103 1
           (mkColumn "Name" false false false false) fluentsql.Desc eq_refl eq_refl);
    [vm_compute; split; [discriminate|reflexivity]|reflexivity].
Defined.

(** ** Find *)

Lemma foldl_AddJoin l q :
  foldl (fun q joinItem => fluentsql.AddJoin joinItem q) q l
  = fluentsql.mkQuery (fluentsql.selectColumns q) (fluentsql.fromTable q)
      (fluentsql.joinItems q ++ l) (fluentsql.whereConditions q)
      (fluentsql.groupByItems q) (fluentsql.havingConditions q)
      (fluentsql.limitClause q) (fluentsql.fetchClause q) (fluentsql.orderByItems q).
Proof.
  revert q. induction l as [|j l IH]; intros q; simpl.
  - destruct q; simpl. by rewrite app_nil_r.
  - rewrite IH. simpl. by rewrite <- app_assoc.
Qed.

Lemma foldl_Having l q :
  foldl (fun q condition =>
           fluentsql.Having (fluentsql.Field condition) (fluentsql.Opt condition)
                            (fluentsql.Value condition) q) q l
  = fluentsql.mkQuery (fluentsql.selectColumns q) (fluentsql.fromTable q)
      (fluentsql.joinItems q) (fluentsql.whereConditions q)
      (fluentsql.groupByItems q) (fluentsql.havingConditions q ++ (havingLeaf <$> l))
      (fluentsql.limitClause q) (fluentsql.fetchClause q) (fluentsql.orderByItems q).
Proof.
  revert q. induction l as [|c l IH]; intros q; simpl.
  - destruct q; simpl. by rewrite app_nil_r.
  - rewrite IH. simpl. by rewrite <- app_assoc.
Qed.

Lemma foldl_OrderBy l q :
  foldl (fun q orderItem =>
           fluentsql.OrderBy (fluentsql.OrderField orderItem)
                             (fluentsql.Direction orderItem) q) q l
  = fluentsql.mkQuery (fluentsql.selectColumns q) (fluentsql.fromTable q)
      (fluentsql.joinItems q) (fluentsql.whereConditions q)
      (fluentsql.groupByItems q) (fluentsql.havingConditions q)
      (fluentsql.limitClause q) (fluentsql.fetchClause q) (fluentsql.orderByItems q ++ l).
Proof.
  revert q. induction l as [|[f d] l IH]; intros q; simpl.
  - destruct q; simpl. by rewrite app_nil_r.
  - rewrite IH. simpl. by rewrite <- app_assoc.
Qed.

(** The query of Find, clause by clause. *)
Lemma buildMany_clauses env db table : buildMany env db table = queryMany env db table.
Proof.
  unfold buildMany, paginate. rewrite foldl_OrderBy.
  assert (Hf : filterMany env db table
               = fluentsql.mkQuery (selectColumnsOf db) (TableName table) (joinStatement db)
                   (whereMany env db table) (groupByStatement db)
                   (havingLeaf <$> havingStatement db) None None []).
  { unfold filterMany. rewrite foldl_Having, foldl_addCondition, foldl_AddJoin.
    unfold whereMany, primaryCond.
    destruct (groupByStatement db); destruct (notNil _ && _); simpl;
      by rewrite ?app_nil_r. }
  rewrite Hf. unfold queryMany, limitOf, fetchOf.
  by destruct (0 <? fluentsql.LimitCount _); destruct (0 <? fluentsql.FetchCount _).
Qed.

(** Find on a pointer to a slice of records, without a raw query and with
    an id list that passes the check: the id list is merged into the
    builder and the queries are run. *)
Lemma Find_ptrSlice_run env db elem params :
  raw_sqlStr db = "" ->
  validIds (processModel elem) params = true ->
  Find env db (PtrSliceModel elem) params
  = runMany env (mergeIds db (processModel elem) params) (PtrSliceModel elem)
           (processModel elem).
Proof.
  intros Hraw Hids. unfold Find, mergeIds. rewrite Hraw. simpl.
  unfold validIds in Hids.
  destruct params as [|ids rest]; [done|].
  destruct (primaryKeyOf (processModel elem)) as [P|]; [|done].
  apply bool_decide_eq_true in Hids. by rewrite Hids.
Qed.

(** X7. The row query of Find follows the builder clause by clause: the
    configured columns (or all), the table of the element type, the joins
    in order, the primary-key condition then the configured conditions in
    order, the group-by keys, the having-conditions as And-joined leaves,
    the limit and the fetch clause when their count is positive, and the
    order items in order. *)
Theorem Find_query_clauses env db elem params :
  raw_sqlStr db = "" ->
  validIds (processModel elem) params = true ->
  head (executed (Find env db (PtrSliceModel elem) params))
  = Some (SelectQuery (PtrSliceModel elem)
            (queryMany env (mergeIds db (processModel elem) params)
                         (processModel elem))).
Proof.
  intros Hraw Hids. rewrite (Find_ptrSlice_run env db elem params Hraw Hids).
  by rewrite runMany_rows, buildMany_clauses.
Qed.

Lemma Find_query_clauses_witness :
  head (executed (Find okEnv fullDB (PtrSliceModel user103) [VSlice [VInt 1]]))
  = Some (SelectQuery (PtrSliceModel user103)
            (fluentsql.mkQuery [VString "Id"; VString "Name"] "users"
               [fluentsql.mkJoinItem fluentsql.LeftJoin "orders" ageIsOne]
               [fluentsql.mkCondition (VString "Id") fluentsql.In (VSlice [VInt 1])
                                      fluentsql.And [];
                ageIsOne]
               [VString "Name"]
               [fluentsql.mkCondition (VString "Age") fluentsql.Greater (VInt 3)
                                      fluentsql.And []]
               (Some (fluentsql.mkLimit 10 20)) (Some (fluentsql.mkFetch 0 5))
               [fluentsql.mkOrderItem "Name" fluentsql.Desc;
                fluentsql.mkOrderItem "Id" fluentsql.Asc])).
Proof.
  exact (Find_query_clauses okEnv fullDB user103 [VSlice [VInt 1]] eq_refl eq_refl).
Defined.

(** What runMany executes and returns depends on the builder only through
    the assembled query. *)
Lemma runMany_same_query env db1 db2 target table :
  buildMany env db1 table = buildMany env db2 table ->
  result (runMany env db1 target table) = result (runMany env db2 target table)
  /\ executed (runMany env db1 target table) = executed (runMany env db2 target table).
Proof.
  intros H. unfold runMany. rewrite H.
  destruct (execute env (SelectQuery _ _)); [done|].
  by destruct (count env _) as [[? [?|]] ?].
Qed.

(** X8. A configured offset reaches the query of Find only together with a
    positive limit: with a limit count of zero or below, Find executes and
    returns the same as with no limit and no offset configured. *)
Theorem Find_offset_needs_positive_limit env db target params limit :
  fluentsql.LimitCount limit <= 0 ->
  result (Find env (set_limitStatement limit db) target params)
  = result (Find env (set_limitStatement (fluentsql.mkLimit 0 0) db) target params)
  /\ executed (Find env (set_limitStatement limit db) target params)
     = executed (Find env (set_limitStatement (fluentsql.mkLimit 0 0) db) target params).
Proof.
  intros Hle.
  assert (Hq : forall db' table,
             buildMany env (set_limitStatement limit db') table
             = buildMany env (set_limitStatement (fluentsql.mkLimit 0 0) db') table).
  { intros db' table. rewrite !buildMany_clauses. unfold queryMany, limitOf. simpl.
    destruct (Z.ltb_spec 0 (fluentsql.LimitCount limit)); [lia|reflexivity]. }
  unfold Find. simpl.
  destruct (negb (bool_decide (raw_sqlStr db = ""))); [done|].
  destruct (TypeOf target) as [typ|]; [|done].
  destruct (negb (isPtrSlice typ)); [done|].
  destruct target as [v|r|r|elem|i es]; try done.
  destruct params as [|ids rest]; [apply runMany_same_query, Hq|].
  destruct (primaryKeyOf (processModel elem)) as [P|]; [|apply runMany_same_query, Hq].
  destruct (valueKind ids) as [k|]; [|done].
  destruct (negb (bool_decide (k = KSlice))); [done|].
  apply (runMany_same_query env
           (set_limitStatement limit (set_wherePrimaryCondition _ db))
           (set_limitStatement (fluentsql.mkLimit 0 0) (set_wherePrimaryCondition _ db))).
  apply Hq.
Qed.

Lemma Find_offset_needs_positive_limit_witness :
  result (Find okEnv (set_limitStatement (fluentsql.mkLimit 0 30) filteredDB)
               (PtrSliceModel user103) [])
  = result (Find okEnv (set_limitStatement (fluentsql.mkLimit 0 0) filteredDB)
                 (PtrSliceModel user103) [])
  /\ executed (Find okEnv (set_limitStatement (fluentsql.mkLimit 0 30) filteredDB)
                    (PtrSliceModel user103) [])
     = executed (Find okEnv (set_limitStatement (fluentsql.mkLimit 0 0) filteredDB)
                      (PtrSliceModel user103) []).
Proof.
  apply (Find_offset_needs_positive_limit okEnv filteredDB (PtrSliceModel user103) []
           (fluentsql.mkLimit 0 30)).
  simpl. lia.
Defined.

(** X9. For an element type without a primary key, Find does not look at
    its parameters at all: whatever is passed, also a value that is not a
    slice, the call behaves as the call without parameters. *)
Theorem Find_without_primary_key_ignores_params env db elem params :
  primaryKeyOf (processModel elem) = None ->
  Find env db (PtrSliceModel elem) params = Find env db (PtrSliceModel elem) [].
Proof.
  intros Hpk. unfold Find.
  destruct (negb (bool_decide (raw_sqlStr db = ""))); [done|]. simpl.
  rewrite Hpk. by destruct params.
Qed.

Lemma Find_without_primary_key_ignores_params_witness :
  Find okEnv filteredDB (PtrSliceModel logLine) [VInt 5]
  = Find okEnv filteredDB (PtrSliceModel logLine) [].
Proof.
  exact (Find_without_primary_key_ignores_params okEnv filteredDB logLine [VInt 5] eq_refl).
Defined.

(** X10. For an element type with a primary key, an id list given to Find
    replaces whatever primary-key condition the builder held, and the
    parameters after the first are not looked at. *)
Theorem Find_id_list_replaces_primary_condition env db condition elem P arg0 args :
  primaryKeyOf (processModel elem) = Some P ->
  valueKind arg0 = Some KSlice ->
  Find env (set_wherePrimaryCondition condition db) (PtrSliceModel elem) (arg0 :: args)
  = Find env db (PtrSliceModel elem) [arg0].
Proof.
  intros Hpk Hk. unfold Find. simpl.
  destruct (negb (bool_decide (raw_sqlStr db = ""))); [done|].
  by rewrite Hpk, Hk.
Qed.

Lemma Find_id_list_replaces_primary_condition_witness :
  Find okEnv (set_wherePrimaryCondition ageIsOne filteredDB) (PtrSliceModel user103)
       [VSlice [VInt 1]; VInt 2]
  = Find okEnv filteredDB (PtrSliceModel user103) [VSlice [VInt 1]].
Proof.
  exact (Find_id_list_replaces_primary_condition okEnv filteredDB ageIsOne user103 "Id"
           (VSlice [VInt 1]) [VInt 2] eq_refl eq_refl).
Defined.

(** X11. Find hands at most two statements to the database.  When the
    first one is the row query and the database rejects it, no count query
    follows and the error of the row query is returned with a total of zero;
    and a count query is only ever handed over right after a row query that
    the database accepted. *)
Theorem Find_counts_after_rows env db target params :
  (length (executed (Find env db target params)) <= 2)%nat
  /\ (forall q err,
         head (executed (Find env db target params)) = Some (SelectQuery target q) ->
         execute env (SelectQuery target q) = Some err ->
         executed (Find env db target params) = [SelectQuery target q]
         /\ result (Find env db target params) = Returned (0, Some err))
  /\ (forall cq,
         CountQuery cq ∈ executed (Find env db target params) ->
         exists q,
           executed (Find env db target params) = [SelectQuery target q; CountQuery cq]
           /\ execute env (SelectQuery target q) = None).
Proof.
  set (P := fun run : Run (Z * error) =>
              (length (executed run) <= 2)%nat
              /\ (forall q err,
                     head (executed run) = Some (SelectQuery target q) ->
                     execute env (SelectQuery target q) = Some err ->
                     executed run = [SelectQuery target q]
                     /\ result run = Returned (0, Some err))
              /\ (forall cq,
                     CountQuery cq ∈ executed run ->
                     exists q,
                       executed run = [SelectQuery target q; CountQuery cq]
                       /\ execute env (SelectQuery target q) = None)).
  change (P (Find env db target params)).
  assert (Hrun : forall db' table, P (runMany env db' target table)).
  { intros db' table. unfold P, runMany, count.
    destruct (execute env (SelectQuery target (buildMany env db' table))) as [e|] eqn:He.
    - simpl. split; [lia|split].
      + intros q err [= <-] Hq. split; [reflexivity|congruence].
      + intros cq Hin. apply list_elem_of_singleton in Hin. discriminate Hin.
    - assert (Hin2 : forall cq c : fluentsql.QueryBuilder,
                 CountQuery cq ∈ [SelectQuery target (buildMany env db' table); CountQuery c] ->
                 cq = c).
      { intros cq c Hin. apply elem_of_cons in Hin as [Hin|Hin]; [discriminate Hin|].
        apply list_elem_of_singleton in Hin. by injection Hin. }
      destruct (execute env (CountQuery _)); simpl; (split; [lia|split]);
        try (intros q err [= <-] Hq; congruence);
        intros cq Hin; apply Hin2 in Hin as ->; eexists; by split. }
  assert (Hnone : forall run : Run (Z * error), executed run = [] -> P run).
  { intros run Hrun0. unfold P. rewrite Hrun0. simpl. split; [lia|split].
    - intros q err [=].
    - intros cq Hin. by apply elem_of_nil in Hin. }
  unfold Find.
  destruct (negb (bool_decide (raw_sqlStr db = ""))).
  { unfold P. simpl. split; [lia|split].
    - intros q err [=].
    - intros cq Hin. apply list_elem_of_singleton in Hin. discriminate Hin. }
  destruct (TypeOf target) as [typ|]; [|by apply Hnone].
  destruct (negb (isPtrSlice typ)); [by apply Hnone|].
  destruct target as [v|r|r|elem|i es]; try by apply Hnone.
  destruct params as [|ids rest]; [apply Hrun|].
  destruct (primaryKeyOf (processModel elem)) as [P0|]; [|apply Hrun].
  destruct (valueKind ids) as [k|]; [|by apply Hnone].
  destruct (negb (bool_decide (k = KSlice))); [by apply Hnone|apply Hrun].
Qed.

Lemma Find_counts_after_rows_witness :
  (executed (Find failingEnv fullDB (PtrSliceModel user103) [])
   = [SelectQuery (PtrSliceModel user103) (queryMany failingEnv fullDB (processModel user103))]
   /\ result (Find failingEnv fullDB (PtrSliceModel user103) [])
      = Returned (0, Some "driver: bad connection"))
  /\ (exists q,
         executed (Find okEnv filteredDB (PtrSliceModel user103) [])
         = [SelectQuery (PtrSliceModel user103) q;
            CountQuery (countQueryOf (queryMany okEnv filteredDB (processModel user103)))]
         /\ execute okEnv (SelectQuery (PtrSliceModel user103) q) = None).
Proof.
  split.
  - apply (proj1 (proj2 (Find_counts_after_rows failingEnv fullDB
                           (PtrSliceModel user103) [])));
      reflexivity.
  - apply (proj2 (proj2 (Find_counts_after_rows okEnv filteredDB
                           (PtrSliceModel user103) []))).
    vm_compute. apply list_elem_of_further, list_elem_of_here.
Defined.

(** X12. Whenever Find returns without an error, the builder has been
    reset. *)
Theorem Find_success_resets env db target params total :
  result (Find env db target params) = Returned (total, None) ->
  builder (Find env db target params) = emptyDB.
Proof.
  destruct (decide (raw_sqlStr db = "")) as [Hraw|Hraw].
  - intros H. destruct (Find_success env db target params total Hraw H) as (elem & -> & E).
    rewrite E in H |- *. by destruct (runMany_success _ _ _ _ _ H) as (_ & _ & ->).
  - unfold Find. by rewrite (bool_decide_eq_false_2 _ Hraw).
Qed.

Lemma Find_success_resets_witness :
  builder (Find okEnv fullDB (PtrSliceModel user103) [VSlice [VInt 1]]) = emptyDB.
Proof.
  exact (Find_success_resets okEnv fullDB (PtrSliceModel user103) [VSlice [VInt 1]] 42
           eq_refl).
Defined.

(** X13. With a raw query set, the terminal operations make none of their
    own checks on the shape of the target and assemble nothing.  GetOne and
    Find hand the target as it is, with the raw text and its arguments, to
    Get and Select of the transaction, or of the default connection when
    there is no transaction; they return the answer and reset the builder
    whatever it is, and Find reports a total of zero, no count query being
    run.  Update hands the raw text and its arguments to the database
    without its argument, returns nil when the statement is accepted and
    ends in the fatal logger otherwise. *)
Theorem raw_query_skips_checks_and_assembly env db target getType reader params :
  raw_sqlStr db <> "" ->
  GetOne env db target getType reader
  = mkRun (Returned (execute env (RawGet (tx db) target (raw_sqlStr db) (raw_args db))))
          emptyDB [RawGet (tx db) target (raw_sqlStr db) (raw_args db)]
  /\ Find env db target params
     = mkRun (Returned (0, execute env (RawSelect (tx db) target (raw_sqlStr db)
                                          (raw_args db))))
             emptyDB [RawSelect (tx db) target (raw_sqlStr db) (raw_args db)]
  /\ executed (Update env db target) = [RawExec (raw_sqlStr db) (raw_args db)]
  /\ result (Update env db target)
     = afterExecute env (RawExec (raw_sqlStr db) (raw_args db)).
Proof.
  intros Hraw. unfold GetOne, Find, Update, dispatch, afterExecute.
  rewrite (bool_decide_eq_false_2 _ Hraw). simpl.
  repeat split; by destruct (execute env (RawExec _ _)).
Qed.

Lemma raw_query_skips_checks_and_assembly_witness :
  GetOne okEnv rawDB (BasicModel (VInt 5)) TakeOne someReader
  = mkRun (Returned None) emptyDB
          [RawGet (Some 4%nat) (BasicModel (VInt 5)) "SELECT 1" [VInt 1]]
  /\ Find okEnv rawDB (BasicModel (VInt 5)) [VInt 3]
     = mkRun (Returned (0, None)) emptyDB
             [RawSelect (Some 4%nat) (BasicModel (VInt 5)) "SELECT 1" [VInt 1]]
  /\ executed (Update okEnv rawDB (BasicModel (VInt 5))) = [RawExec "SELECT 1" [VInt 1]]
  /\ result (Update okEnv rawDB (BasicModel (VInt 5))) = Returned None.
Proof.
  apply (raw_query_skips_checks_and_assembly okEnv rawDB (BasicModel (VInt 5)) TakeOne
           someReader [VInt 3]).
  discriminate.
Defined.

(** X22. Find reads from the element type of its target only the table name
    and the primary key: for two element types that agree on both, the same
    builder and the same parameters give the same row query, whatever the
    other columns of the types and whatever values their records hold (no
    in-struct filter is built, unlike in GetOne). *)
Theorem Find_reads_table_name_and_key_only env db elem1 elem2 params :
  raw_sqlStr db = "" ->
  validIds (processModel elem1) params = true ->
  TableName (processModel elem1) = TableName (processModel elem2) ->
  primaryKeyOf (processModel elem1) = primaryKeyOf (processModel elem2) ->
  exists q,
    head (executed (Find env db (PtrSliceModel elem1) params))
    = Some (SelectQuery (PtrSliceModel elem1) q)
    /\ head (executed (Find env db (PtrSliceModel elem2) params))
       = Some (SelectQuery (PtrSliceModel elem2) q).
Proof.
  intros Hraw Hids Hname Hkey.
  assert (Hids2 : validIds (processModel elem2) params = true)
    by (unfold validIds in *; by rewrite <- Hkey).
  rewrite (Find_ptrSlice_run env db elem1 params Hraw Hids).
  rewrite (Find_ptrSlice_run env db elem2 params Hraw Hids2).
  rewrite !runMany_rows, !buildMany_clauses.
  eexists. split; [reflexivity|].
  unfold queryMany, whereMany, primaryCond, mergeIds. by rewrite Hname, Hkey.
Qed.

Lemma Find_reads_table_name_and_key_only_witness :
  exists q,
    head (executed (Find okEnv filteredDB (PtrSliceModel userCat) [VSlice [VInt 1]]))
    = Some (SelectQuery (PtrSliceModel userCat) q)
    /\ head (executed
               (Find okEnv filteredDB
                  (PtrSliceModel (mkStruct "users" [mkField "Id" true false true (VInt 1)]))
                  [VSlice [VInt 1]]))
       = Some (SelectQuery
                 (PtrSliceModel (mkStruct "users" [mkField "Id" true false true (VInt 1)])) q).
Proof.
  exact (Find_reads_table_name_and_key_only okEnv filteredDB userCat
           (mkStruct "users" [mkField "Id" true false true (VInt 1)])
           [VSlice [VInt 1]] eq_refl eq_refl eq_refl eq_refl).
Defined.

(** ** Update *)

Lemma omit_guard db name :
  match omitsSelectStatement db with [] => false | _ :: _ => omitted db name end
  = omitted db name.
Proof. unfold omitted. by destruct (omitsSelectStatement db). Qed.

Lemma collectColumn_primaryCondition db table acc column :
  primaryCondition (collectColumn db table (primaryKeyOf table) acc column)
  = if captureTest db table column then capturedCondition table else primaryCondition acc.
Proof.
  unfold collectColumn, captureTest. rewrite omit_guard.
  destruct (CanColumnBeAddOrUpdate table column); simpl; [|done].
  destruct (omitted db (Name column)); simpl; [done|].
  case_bool_decide as Hpk; simpl; [|done].
  unfold capturedCondition. by rewrite <- Hpk.
Qed.

Lemma foldl_collectColumn_primaryCondition db table cols acc :
  primaryCondition (foldl (collectColumn db table (primaryKeyOf table)) acc cols)
  = if existsb (captureTest db table) cols then capturedCondition table
    else primaryCondition acc.
Proof.
  revert acc. induction cols as [|c cols IH]; intros acc; simpl; [done|].
  rewrite IH, collectColumn_primaryCondition.
  by destruct (captureTest db table c), (existsb (captureTest db table) cols).
Qed.

(** The first loop of updateByStruct leaves as primary-key condition the
    equality of the primary key with its value in the record when the
    primary-key column may be updated and is not omitted, and the condition
    of the builder otherwise. *)
Lemma collect_primaryCondition db table :
  primaryCondition (collect db table) = effectiveCondition db table.
Proof. unfold collect. by rewrite foldl_collectColumn_primaryCondition. Qed.

Lemma captures_primaryKey db table :
  captures db table = true -> is_Some (primaryKeyOf table).
Proof.
  unfold captures. intros (c & _ & Hc)%existsb_exists.
  unfold captureTest in Hc. apply andb_prop in Hc as [_ Hpk].
  apply bool_decide_eq_true in Hpk. rewrite <- Hpk. eauto.
Qed.

Lemma existsb_all_false {A : Type} (f : A -> bool) (l : list A) :
  (forall x, f x = false) -> existsb f l = false.
Proof. intros Hf. induction l as [|x l IH]; simpl; [done|]. by rewrite Hf, IH. Qed.

Lemma omitted_not_captured db table P :
  primaryKeyOf table = Some P -> omitted db P = true -> captures db table = false.
Proof.
  intros Hpk Hom. unfold captures. apply existsb_all_false. intros c.
  unfold captureTest. rewrite Hpk.
  case_bool_decide as Hc; [|by rewrite andb_false_r].
  injection Hc as ->. by rewrite Hom, andb_false_r.
Qed.

Lemma whereUpdate_eq db table :
  whereUpdate db table
  = (if primaryCond (effectiveCondition db table) table
     then [fluentsql.mkCondition (anyOf (primaryKeyOf table))
                                 (fluentsql.Opt (effectiveCondition db table))
                                 (fluentsql.Value (effectiveCondition db table))
                                 fluentsql.And []]
     else [])
    ++ (asAdded <$> whereStatement db).
Proof. unfold whereUpdate. cbn zeta. by rewrite collect_primaryCondition. Qed.

(** Update on a record, without a raw query: either there is no condition
    and the missing-WHERE error ends in the fatal logger, or one update is
    executed. *)
Lemma Update_record env db target r :
  raw_sqlStr db = "" ->
  recordOf target = Some r ->
  Update env db target
  = let table := describe r in
    let db' := set_wherePrimaryCondition (effectiveCondition db table) db in
    match whereUpdate db table with
    | [] => mkRun (Fatal missingWhere) db' []
    | conds =>
        let stmt :=
          UpdateStmt (fluentsql.mkUpdate (TableName table) conds (setPairs table)) in
        match execute env stmt with
        | Some err => mkRun (Fatal err) db' [stmt]
        | None => mkRun (Returned None) emptyDB [stmt]
        end
    end.
Proof.
  intros Hraw Hrec. unfold Update, dispatch. rewrite Hraw. simpl.
  assert (Hd : (match TypeOf target with
                | Some typ =>
                    if bool_decide (kind typ = KMap) then updateByMap env db target
                    else if isStructOrPtr typ then updateByStruct env db target
                         else mkRun (Returned None) db []
                | None =>
                    mkRun (Panicked "invalid memory address or nil pointer dereference") db []
                end) = updateByStruct env db target)
    by (destruct target; simpl in Hrec; try done).
  rewrite Hd, (updateByStruct_record env db target r Hrec). cbn zeta.
  rewrite collect_primaryCondition.
  destruct (whereUpdate db (describe r)); simpl; [done|].
  by destruct (execute env _).
Qed.

(** X14. Update of a record whose primary-key column may be updated and is
    not omitted, with a non-nil value (a zero key is one) and no configured
    where-condition, executes exactly one update, whose WHERE clause is the
    equality of the primary key with its value in the record, whatever
    primary-key condition the builder held; the populated columns are its
    SET pairs. *)
Theorem Update_targets_the_primary_key env db target r :
  raw_sqlStr db = "" ->
  recordOf target = Some r ->
  captures db (describe r) = true ->
  notNil (fluentsql.Value (capturedCondition (describe r))) = true ->
  whereStatement db = [] ->
  executed (Update env db target)
  = [UpdateStmt (fluentsql.mkUpdate (TableName (describe r))
                   [capturedCondition (describe r)] (setPairs (describe r)))]
  /\ result (Update env db target)
     = afterExecute env
         (UpdateStmt (fluentsql.mkUpdate (TableName (describe r))
                        [capturedCondition (describe r)] (setPairs (describe r)))).
Proof.
  intros Hraw Hrec Hcap Hnil Hwhere.
  rewrite (Update_record env db target r Hraw Hrec). cbn zeta.
  rewrite whereUpdate_eq. unfold effectiveCondition, primaryCond. rewrite Hcap, Hnil, Hwhere.
  rewrite (bool_decide_eq_true_2 _ (captures_primaryKey _ _ Hcap)). simpl.
  unfold afterExecute. by destruct (execute env _).
Qed.

Lemma Update_targets_the_primary_key_witness :
  executed (Update okEnv emptyDB (StructModel userZero))
  = [UpdateStmt (fluentsql.mkUpdate "users"
                   [fluentsql.mkCondition (VString "Id") fluentsql.Eq (VInt 0) fluentsql.And []]
                   [])]
  /\ result (Update okEnv emptyDB (StructModel userZero)) = Returned None.
Proof.
  exact (Update_targets_the_primary_key okEnv emptyDB (StructModel userZero) userZero
           eq_refl eq_refl eq_refl eq_refl eq_refl).
Defined.

(** X15. Omitting the primary-key column takes the implied primary-key
    condition away: with the primary key in the omit list, no primary-key
    value held by the builder and no configured where-condition, Update of
    a record ends with the missing-WHERE error and executes nothing, also
    when the record carries a primary-key value. *)
Theorem Update_omitted_primary_key_fails env db target r P :
  raw_sqlStr db = "" ->
  recordOf target = Some r ->
  primaryKeyOf (describe r) = Some P ->
  omitted db P = true ->
  notNil (fluentsql.Value (wherePrimaryCondition db)) = false ->
  whereStatement db = [] ->
  result (Update env db target) = Fatal missingWhere
  /\ executed (Update env db target) = [].
Proof.
  intros Hraw Hrec Hpk Hom Hnil Hwhere.
  rewrite (Update_record env db target r Hraw Hrec). cbn zeta.
  rewrite whereUpdate_eq. unfold effectiveCondition, primaryCond.
  by rewrite (omitted_not_captured db _ P Hpk Hom), Hnil, Hwhere.
Qed.

Lemma Update_omitted_primary_key_fails_witness :
  result (Update okEnv omitIdDB (StructModel userCat)) = Fatal missingWhere
  /\ executed (Update okEnv omitIdDB (StructModel userCat)) = [].
Proof.
  exact (Update_omitted_primary_key_fails okEnv omitIdDB (StructModel userCat) userCat "Id"
           eq_refl eq_refl eq_refl eq_refl eq_refl eq_refl).
Defined.

(** X16. When Update of a record has a condition, it executes exactly one
    update on the table of the record: its WHERE clause is the primary-key
    condition (captured from the record, or else held by the builder, and
    only for a type with a primary key) followed by the configured
    conditions in configuration order, and Update returns nil when the
    database accepts the statement and ends in the fatal logger with its
    error otherwise. *)
Theorem Update_statement env db target r :
  raw_sqlStr db = "" ->
  recordOf target = Some r ->
  whereUpdate db (describe r) <> [] ->
  exists u,
    executed (Update env db target) = [UpdateStmt u]
    /\ result (Update env db target) = afterExecute env (UpdateStmt u)
    /\ fluentsql.updateTable u = TableName (describe r)
    /\ fluentsql.updateWhere u
       = (if primaryCond (effectiveCondition db (describe r)) (describe r)
          then [fluentsql.mkCondition (anyOf (primaryKeyOf (describe r)))
                  (fluentsql.Opt (effectiveCondition db (describe r)))
                  (fluentsql.Value (effectiveCondition db (describe r)))
                  fluentsql.And []]
          else [])
         ++ (asAdded <$> whereStatement db).
Proof.
  intros Hraw Hrec Hne.
  rewrite (Update_record env db target r Hraw Hrec). cbn zeta.
  rewrite <- whereUpdate_eq.
  destruct (whereUpdate db (describe r)) as [|c conds]; [done|].
  exists (fluentsql.mkUpdate (TableName (describe r)) (c :: conds) (setPairs (describe r))).
  unfold afterExecute.
  destruct (execute env _); simpl; by repeat split.
Qed.

Lemma Update_statement_witness :
  exists u,
    executed (Update failingEnv filteredDB (PtrStructModel userCat)) = [UpdateStmt u]
    /\ result (Update failingEnv filteredDB (PtrStructModel userCat))
       = afterExecute failingEnv (UpdateStmt u)
    /\ fluentsql.updateTable u = "users"
    /\ fluentsql.updateWhere u
       = [fluentsql.mkCondition (VString "Id") fluentsql.Eq (VInt 7) fluentsql.And [];
          ageIsOne].
Proof.
  apply (Update_statement failingEnv filteredDB (PtrStructModel userCat) userCat
           eq_refl eq_refl).
  vm_compute. discriminate.
Defined.

Lemma filter_HasValue_nil cols :
  existsb HasValue cols = false -> List.filter HasValue cols = [].
Proof.
  induction cols as [|c cols IH]; simpl; [done|].
  destruct (HasValue c); simpl; [done|exact IH].
Qed.

(** X17. Update does not check that there is anything to set: for a record
    without any populated column and with a configured where-condition, it
    executes an update whose SET clause is empty. *)
Theorem Update_with_empty_set env db target r :
  raw_sqlStr db = "" ->
  recordOf target = Some r ->
  HasData (describe r) = false ->
  whereStatement db <> [] ->
  exists u,
    executed (Update env db target) = [UpdateStmt u]
    /\ fluentsql.updateSet u = [].
Proof.
  intros Hraw Hrec Hdata Hwhere.
  rewrite (Update_record env db target r Hraw Hrec). cbn zeta.
  assert (Hset : setPairs (describe r) = [])
    by (unfold setPairs; by rewrite (filter_HasValue_nil (Columns (describe r)) Hdata)).
  rewrite Hset, whereUpdate_eq.
  destruct (whereStatement db) as [|c conds]; [done|].
  destruct (primaryCond _ _); simpl;
    match goal with
    | |- context [UpdateStmt ?u] => exists u; by destruct (execute env (UpdateStmt u))
    end.
Qed.

Lemma Update_with_empty_set_witness :
  exists u,
    executed (Update okEnv filteredDB (StructModel userZero)) = [UpdateStmt u]
    /\ fluentsql.updateSet u = [].
Proof.
  apply (Update_with_empty_set okEnv filteredDB (StructModel userZero) userZero
           eq_refl eq_refl eq_refl).
  discriminate.
Defined.

(** X18. Whenever Update returns, the builder has been reset. *)
Theorem Update_return_resets env db target err :
  result (Update env db target) = Returned err ->
  builder (Update env db target) = emptyDB.
Proof.
  unfold Update. by destruct (result (dispatch env db target)) as [[e|]| |].
Qed.

Lemma Update_return_resets_witness :
  builder (Update okEnv filteredDB (StructModel userCat)) = emptyDB.
Proof.
  exact (Update_return_resets okEnv filteredDB (StructModel userCat) None eq_refl).
Defined.





Lemma executed_updateByStruct env db target :
  executed (updateByStruct env db target) = []
  \/ exists u, executed (updateByStruct env db target) = [UpdateStmt u].
Proof.
  unfold updateByStruct. destruct (ModelData target) as [table|]; [|by left].
  cbn zeta. destruct (foldl addUpdateCondition _ _) as [u has].
  destruct has; simpl; eauto.
Qed.

(** X21. Update hands at most one statement to the database: the raw text
    with its arguments through execRaw, or the assembled update through
    db.update. *)
Theorem Update_executes_at_most_once env db target :
  executed (Update env db target) = []
  \/ executed (Update env db target) = [RawExec (raw_sqlStr db) (raw_args db)]
  \/ exists u, executed (Update env db target) = [UpdateStmt u].
Proof.
  assert (He : executed (Update env db target) = executed (dispatch env db target))
    by (unfold Update; by destruct (result (dispatch env db target)) as [[e|]| |]).
  rewrite He. unfold dispatch.
  destruct (negb (bool_decide (raw_sqlStr db = ""))); [right; by left|].
  destruct (TypeOf target) as [typ|]; [|by left].
  assert (Hs : forall db' t,
             executed (updateByStruct env db' t) = []
             \/ executed (updateByStruct env db' t) = [RawExec (raw_sqlStr db) (raw_args db)]
             \/ exists u, executed (updateByStruct env db' t) = [UpdateStmt u]).
  { intros db' t. destruct (executed_updateByStruct env db' t) as [->|[u ->]];
      [by left|right; right; by exists u]. }
  destruct (bool_decide (kind typ = KMap)).
  - unfold updateByMap. destruct (model db); [|by left].
    destruct target; try by left. apply Hs.
  - destruct (isStructOrPtr typ); [apply Hs|by left].
Qed.
